(** * Snowflake Cortex chat assistant: query routing and context assembly

    A shallow embedding of [snowflake-data-platform-intelligent-search.py]
    and the properties of its classifier, history window, search gateway,
    prompt builder and per-turn controller.

    Python text is embedded as [string]; the Streamlit session state as a
    record; code that raises, mutates the session state or calls the
    Snowflake platform as a state-and-exception monad over a [World] that
    holds the session state and the chronological list of platform calls. *)

From Stdlib Require Import String Ascii List ZArith Lia Bool Arith DecimalString.
Import ListNotations.

Local Open Scope string_scope.
Local Open Scope list_scope.

Infix "+++" := String.append (right associativity, at level 60).

(* ------------------------------------------------------------------ *)
(** ** Text helpers: substring test, [str.replace], line splitting      *)
(* ------------------------------------------------------------------ *)

Module Text.

Definition nl : string := String (ascii_of_nat 10) EmptyString.
Definition dquote : string := String (ascii_of_nat 34) EmptyString.
Definition apostrophe : ascii := ascii_of_nat 39.
Definition lt_sign : ascii := ascii_of_nat 60.

(** [k in s] of Python: [k] occurs in [s] as a contiguous run. *)
Fixpoint contains (k s : string) : bool :=
  String.prefix k s
  || match s with
     | EmptyString => false
     | String _ s' => contains k s'
     end.

(** The relation [contains] decides. *)
Definition Substring (k s : string) : Prop :=
  exists a b, s = a +++ k +++ b.

(** [s.replace(old, new)]: leftmost, non-overlapping occurrences.  [skip]
    counts the characters of a matched [old] still to be dropped. *)
Fixpoint replace_from (skip : nat) (old new s : string) : string :=
  match s with
  | EmptyString => EmptyString
  | String c s' =>
      match skip with
      | S k => replace_from k old new s'
      | O =>
          if String.prefix old s
          then new +++ replace_from (String.length old - 1) old new s'
          else String c (replace_from 0 old new s')
      end
  end.

Fixpoint intersperse_after (new s : string) : string :=
  match s with
  | EmptyString => EmptyString
  | String c s' => String c (new +++ intersperse_after new s')
  end.

Definition str_replace (old new s : string) : string :=
  match old with
  | EmptyString => new +++ intersperse_after new s
  | _ => replace_from 0 old new s
  end.

(** Every character of [s] that satisfies [keep], in order. *)
Fixpoint filter_chars (keep : ascii -> bool) (s : string) : string :=
  match s with
  | EmptyString => EmptyString
  | String c s' =>
      if keep c then String c (filter_chars keep s') else filter_chars keep s'
  end.

Fixpoint has_char (c : ascii) (s : string) : bool :=
  match s with
  | EmptyString => false
  | String d s' => Ascii.eqb c d || has_char c s'
  end.

(** [s.split("\n")]: the lines of [s]; never empty. *)
Fixpoint lines_of (s : string) : list string :=
  match s with
  | EmptyString => [EmptyString]
  | String c s' =>
      if Ascii.eqb c (ascii_of_nat 10)
      then EmptyString :: lines_of s'
      else match lines_of s' with
           | [] => [String c EmptyString]
           | l :: ls => String c l :: ls
           end
  end.

Definition count_lines (line : string) (s : string) : nat :=
  count_occ string_dec (lines_of s) line.

(** ASCII lower-casing, the restriction of [str.lower] to ASCII text. *)
Definition lower_ascii_char (c : ascii) : ascii :=
  let n := nat_of_ascii c in
  if (65 <=? n)%nat && (n <=? 90)%nat then ascii_of_nat (n + 32) else c.

Fixpoint ascii_lower (s : string) : string :=
  match s with
  | EmptyString => EmptyString
  | String c s' => String (lower_ascii_char c) (ascii_lower s')
  end.

End Text.

Import Text.

(* ------------------------------------------------------------------ *)
(** ** Module-level constants                                          *)
(* ------------------------------------------------------------------ *)

Definition MODELS : list string :=
  ["mistral-large"; "llama3-70b"; "llama3-8b"].

Definition STRUCTURED_KEYWORDS : list string :=
  ["nasdaq traded"; "symbol"; "security name"; "listing exchange";
   "market category"; "etf"; "round lot size"; "test issue";
   "financial status"; "cqs symbol"; "nasdaq symbol"; "nextshares"].

Definition STRUCTURED_SERVICE : string := "stock_market_service".
Definition UNSTRUCTURED_SERVICE : string := "prospectus_service".

(* ------------------------------------------------------------------ *)
(** ** Data model                                                      *)
(* ------------------------------------------------------------------ *)

(** A chat message, the dict [{"role": ..., "content": ...}]. *)
Record Message := mkMessage { role : string; content : string }.

(** A discovered search service, the dict
    [{"name": ..., "search_column": ...}]. *)
Record ServiceMeta := mkServiceMeta { name : string; search_column : string }.

(** A row returned by the platform (a Snowpark [Row] or a search result
    dict): column names with their values, in column order. *)
Definition Row : Type := list (string * string).

Inductive Exn : Type :=
| ValueError (msg : string)
| KeyError (key : string)
| IndexError
| AttributeError (attr : string)
| PlatformError (msg : string).

(** [st.session_state].  The keys tested with [in] or only ever assigned
    are optional; the keys bound to sidebar widgets are always present. *)
Record SessionState := mkSessionState {
  messages : option (list Message);
  service_metadata : option (list ServiceMeta);
  selected_cortex_search_service : option string;
  clear_conversation : bool;
  debug : bool;
  use_chat_history : bool;
  model_name : string;
  num_retrieved_chunks : Z;
  num_chat_messages : Z
}.

Definition set_messages (v : list Message) (s : SessionState) : SessionState :=
  mkSessionState (Some v) (service_metadata s)
    (selected_cortex_search_service s) (clear_conversation s) (debug s)
    (use_chat_history s) (model_name s) (num_retrieved_chunks s)
    (num_chat_messages s).

Definition set_service_metadata (v : list ServiceMeta) (s : SessionState)
  : SessionState :=
  mkSessionState (messages s) (Some v)
    (selected_cortex_search_service s) (clear_conversation s) (debug s)
    (use_chat_history s) (model_name s) (num_retrieved_chunks s)
    (num_chat_messages s).

Definition set_selected_cortex_search_service (v : string) (s : SessionState)
  : SessionState :=
  mkSessionState (messages s) (service_metadata s)
    (Some v) (clear_conversation s) (debug s)
    (use_chat_history s) (model_name s) (num_retrieved_chunks s)
    (num_chat_messages s).

(** The clear button writes its key on every run: true in the run its
    press triggers, false in the others. *)
Definition set_clear_conversation (v : bool) (s : SessionState)
  : SessionState :=
  mkSessionState (messages s) (service_metadata s)
    (selected_cortex_search_service s) v (debug s)
    (use_chat_history s) (model_name s) (num_retrieved_chunks s)
    (num_chat_messages s).

(** A request sent to the Snowflake platform. *)
Inductive Call : Type :=
| CallSql (query : string) (params : list string)
| CallSearch (service query : string) (limit : Z).

(** What a run of the script can read and change: the session state and
    the requests made so far, oldest first. *)
Record World := mkWorld { state : SessionState; calls : list Call }.

Inductive result (A : Type) : Type :=
| Ok (a : A)
| Raise (e : Exn).
Arguments Ok {A} a.
Arguments Raise {A} e.

(** Computations that may raise; the world reached when an exception is
    raised is kept, as a Python exception does not undo earlier writes. *)
Definition M (A : Type) : Type := World -> result A * World.

Definition ret {A} (a : A) : M A := fun w => (Ok a, w).

Definition raise {A} (e : Exn) : M A := fun w => (Raise e, w).

Definition bind {A B} (m : M A) (f : A -> M B) : M B :=
  fun w =>
    match m w with
    | (Ok a, w') => f a w'
    | (Raise e, w') => (Raise e, w')
    end.

Notation "x <- m ;; k" := (bind m (fun x => k))
  (at level 61, m at next level, right associativity).
Notation "m ;; k" := (bind m (fun _ => k))
  (at level 61, right associativity).

Definition get_state : M SessionState := fun w => (Ok (state w), w).

Definition modify (f : SessionState -> SessionState) : M unit :=
  fun w => (Ok tt, mkWorld (f (state w)) (calls w)).

Definition lift {A} (r : result A) : M A := fun w => (r, w).

(** [row[key]]. *)
Fixpoint row_get (key : string) (r : Row) : result string :=
  match r with
  | [] => Raise (KeyError key)
  | (k, v) :: r' => if String.eqb k key then Ok v else row_get key r'
  end.

(** [rows[0]]. *)
Definition first_row (rows : list Row) : result Row :=
  match rows with
  | [] => Raise IndexError
  | r :: _ => Ok r
  end.

(** [row[0]]. *)
Definition first_column (r : Row) : result string :=
  match r with
  | [] => Raise IndexError
  | (_, v) :: _ => Ok v
  end.

(** [xs[start:stop]] with Python's treatment of negative and
    out-of-range bounds. *)
Definition clamp_index (len i : Z) : Z :=
  if (i <? 0)%Z then Z.max 0 (i + len) else Z.min i len.

Definition py_slice {A} (xs : list A) (start stop : Z) : list A :=
  let len := Z.of_nat (length xs) in
  let lo := clamp_index len start in
  let hi := clamp_index len stop in
  firstn (Z.to_nat (hi - lo)) (skipn (Z.to_nat lo) xs).

(** [str(n)] for a natural number. *)
Definition str_of_nat (n : nat) : string :=
  NilEmpty.string_of_uint (Nat.to_uint n).

(* ------------------------------------------------------------------ *)
(** ** Prompt templates (the two f-strings)                            *)
(* ------------------------------------------------------------------ *)

Definition indent : string := "        ".

(** One template line: eight spaces, the text, a newline. *)
Definition ln (s : string) : string := indent +++ s +++ nl.

(** The f-string of [make_chat_history_summary]. *)
Definition summary_prompt (chat_history question : string) : string :=
  nl
  +++ ln "[INST]"
  +++ ln "Based on the chat history below and the question, generate a query that extend the question"
  +++ ln "with the chat history provided. The query should be in natural language."
  +++ ln "Answer with only the query. Do not add any explanation."
  +++ nl
  +++ ln "<chat_history>"
  +++ ln chat_history
  +++ ln "</chat_history>"
  +++ ln "<question>"
  +++ ln question
  +++ ln "</question>"
  +++ ln "[/INST]"
  +++ "    ".

(** The f-string of [create_prompt]. *)
Definition prompt_template (chat_history prompt_context user_question : string)
  : string :=
  nl
  +++ ln "[INST]"
  +++ ln "You are a helpful AI chat assistant with RAG capabilities. When a user asks you a question,"
  +++ ln "you will also be given context provided between <context> and </context> tags. Use that context"
  +++ ln "with the user's chat history provided in the between <chat_history> and </chat_history> tags"
  +++ ln "to provide a summary that addresses the user's question. Ensure the answer is coherent, concise,"
  +++ ln "and directly relevant to the user's question."
  +++ nl
  +++ ln "If the user asks a generic question which cannot be answered with the given context or chat_history,"
  +++ ln ("just say " +++ dquote +++ "I don't know the answer to that question." +++ dquote)
  +++ nl
  +++ ln ("Don't say things like " +++ dquote +++ "according to the provided context" +++ dquote +++ ".")
  +++ nl
  +++ ln "<chat_history>"
  +++ ln chat_history
  +++ ln "</chat_history>"
  +++ ln "<context>"
  +++ ln prompt_context
  +++ ln "</context>"
  +++ ln "<question>"
  +++ ln user_question
  +++ ln "</question>"
  +++ ln "[/INST]"
  +++ ln "Answer:"
  +++ "    ".

(** The loop of [query_cortex_search_service] that renders the retrieved
    rows; [i] is the number of rows rendered so far. *)
Fixpoint render_context (search_col : string) (results : list Row) (i : nat)
  (context_str : string) : result string :=
  match results with
  | [] => Ok context_str
  | r :: rest =>
      match row_get search_col r with
      | Raise e => Raise e
      | Ok doc =>
          render_context search_col rest (S i)
            (context_str +++ "Context document " +++ str_of_nat (i + 1)
               +++ ": " +++ doc +++ nl +++ nl)
      end
  end.

(* ------------------------------------------------------------------ *)
(** ** The script                                                      *)
(* ------------------------------------------------------------------ *)

Section Script.

(** What the script takes from Python and from the platform:
    - [lower] is [str.lower];
    - [str_of_messages] is the text an f-string gives for a list of
      message dicts;
    - [platform_sql] is [session.sql(query, params).collect()] and
      [platform_search] is the [search] method of a Cortex search service
      of the current database and schema, returning [.results]; each may
      answer differently depending on the requests made before it. *)
Variable lower : string -> string.
Variable str_of_messages : list Message -> string.
Variable platform_sql : list Call -> string -> list string -> result (list Row).
Variable platform_search :
  list Call -> string -> string -> Z -> result (list Row).

Definition sql_collect (query : string) (params : list string)
  : M (list Row) :=
  fun w =>
    (platform_sql (calls w) query params,
     mkWorld (state w) (calls w ++ [CallSql query params])).

Definition search_results (service query : string) (limit : Z)
  : M (list Row) :=
  fun w =>
    (platform_search (calls w) service query limit,
     mkWorld (state w) (calls w ++ [CallSearch service query limit])).

(** *** Initialisers *)

Definition init_messages (s : SessionState) : SessionState :=
  if clear_conversation s
     || match messages s with None => true | Some _ => false end
  then set_messages [] s
  else s.

(** The loop of [init_service_metadata] over the rows of
    [SHOW CORTEX SEARCH SERVICES]. *)
Fixpoint describe_services (services : list Row)
  (service_metadata : list ServiceMeta) : M (list ServiceMeta) :=
  match services with
  | [] => ret service_metadata
  | s :: rest =>
      svc_name <- lift (row_get "name" s) ;;
      rows <- sql_collect
                ("DESC CORTEX SEARCH SERVICE " +++ svc_name +++ ";") [] ;;
      row <- lift (first_row rows) ;;
      svc_search_col <- lift (row_get "search_column" row) ;;
      describe_services rest
        (service_metadata ++ [mkServiceMeta svc_name svc_search_col])
  end.

Definition init_service_metadata : M unit :=
  s <- get_state ;;
  match service_metadata s with
  | Some _ => ret tt
  | None =>
      services <- sql_collect "SHOW CORTEX SEARCH SERVICES;" [] ;;
      service_metadata <- describe_services services [] ;;
      modify (set_service_metadata service_metadata)
  end.

(** The sidebar widgets write to the page and keep the widget-bound keys
    of the session state; they run no pipeline logic. *)
Definition init_config_options : M unit := ret tt.

(** *** Classifier *)

Fixpoint classify_keywords (keywords : list string) (prompt_lower : string)
  : string :=
  match keywords with
  | [] => "unstructured"
  | keyword :: rest =>
      if contains keyword prompt_lower
      then "structured"
      else classify_keywords rest prompt_lower
  end.

Definition classify_prompt (prompt : string) : string :=
  let prompt_lower := lower prompt in
  classify_keywords STRUCTURED_KEYWORDS prompt_lower.

(** *** Main utility methods *)

Definition select_service (query : string) : string :=
  let service_type := classify_prompt query in
  if String.eqb service_type "structured"
  then STRUCTURED_SERVICE
  else UNSTRUCTURED_SERVICE.

Definition not_found_message (service_name : string) : string :=
  "Search service '" +++ service_name +++ "' not found in service metadata.".

(** The current database and schema only address the service and are
    part of [platform_search]; the debug text area shows [context_str]
    and changes nothing. *)
Definition query_cortex_search_service (query : string) : M string :=
  let service_name := select_service query in
  modify (set_selected_cortex_search_service service_name) ;;
  s <- get_state ;;
  results <- search_results service_name query (num_retrieved_chunks s) ;;
  s <- get_state ;;
  match service_metadata s with
  | None => raise (AttributeError "service_metadata")
  | Some service_metadata =>
      let search_col_list :=
        map search_column
          (filter (fun s => String.eqb (lower (name s)) (lower service_name))
             service_metadata) in
      match search_col_list with
      | [] => raise (ValueError (not_found_message service_name))
      | search_col :: _ =>
          lift (render_context search_col results 0 EmptyString)
      end
  end.

Definition get_chat_history : M (list Message) :=
  s <- get_state ;;
  match messages s with
  | None => raise (AttributeError "messages")
  | Some messages =>
      let len := Z.of_nat (length messages) in
      let start_index := Z.max 0 (len - num_chat_messages s) in
      ret (py_slice messages start_index (len - 1))
  end.

Definition COMPLETE_SQL : string := "SELECT snowflake.cortex.complete(?, ?)".

Definition complete (model prompt : string) : M string :=
  rows <- sql_collect COMPLETE_SQL [model; prompt] ;;
  row <- lift (first_row rows) ;;
  lift (first_column row).

(** The debug text area shows the summary and changes nothing. *)
Definition make_chat_history_summary (chat_history : list Message)
  (question : string) : M string :=
  let prompt := summary_prompt (str_of_messages chat_history) question in
  s <- get_state ;;
  summary <- complete (model_name s) prompt ;;
  ret summary.

Definition create_prompt (user_question : string) : M string :=
  s <- get_state ;;
  if use_chat_history s then
    chat_history <- get_chat_history ;;
    match chat_history with
    | _ :: _ =>
        question_summary <-
          make_chat_history_summary chat_history user_question ;;
        prompt_context <- query_cortex_search_service question_summary ;;
        ret (prompt_template (str_of_messages chat_history) prompt_context
               user_question)
    | [] =>
        prompt_context <- query_cortex_search_service user_question ;;
        ret (prompt_template (str_of_messages chat_history) prompt_context
               user_question)
    end
  else
    prompt_context <- query_cortex_search_service user_question ;;
    ret (prompt_template EmptyString prompt_context user_question).

(** *** Entry point *)

(** [st.session_state.messages.append({"role": r, "content": c})]. *)
Definition append_message (r c : string) : M unit :=
  s <- get_state ;;
  match messages s with
  | None => raise (AttributeError "messages")
  | Some msgs => modify (set_messages (msgs ++ [mkMessage r c]))
  end.

(** [st.chat_input(..., disabled=disable_chat)] followed by the truth test
    of the walrus condition: a disabled box submits nothing, and an empty
    submission is not a question. *)
Definition chat_input (disable_chat : bool) (typed : option string)
  : option string :=
  if disable_chat then None
  else match typed with
       | Some EmptyString => None
       | other => other
       end.

(** One run of the script; [typed] is what the user submitted in the chat
    box for this run, if anything.  Drawing the title, the earlier
    messages, the question and the reply writes to the page only. *)
Definition main (typed : option string) : M unit :=
  init_service_metadata ;;
  init_config_options ;;
  modify init_messages ;;
  s <- get_state ;;
  let disable_chat :=
    match service_metadata s with
    | None => true
    | Some md => Nat.eqb (length md) 0
    end in
  match chat_input disable_chat typed with
  | None => ret tt
  | Some question =>
      append_message "user" question ;;
      let question := str_replace "'" EmptyString question in
      s <- get_state ;;
      prompt <- create_prompt question ;;
      generated_response <- complete (model_name s) prompt ;;
      append_message "assistant" generated_response
  end.

End Script.

(* ------------------------------------------------------------------ *)
(** ** A small concrete platform and session, for running the script   *)
(* ------------------------------------------------------------------ *)

Module Demo.

Definition lower : string -> string := ascii_lower.

Definition str_of_message (m : Message) : string :=
  "{'role': '" +++ role m +++ "', 'content': '" +++ content m +++ "'}".

Fixpoint join_messages (ms : list Message) : string :=
  match ms with
  | [] => EmptyString
  | [m] => str_of_message m
  | m :: rest => str_of_message m +++ ", " +++ join_messages rest
  end.

Definition str_of_messages (ms : list Message) : string :=
  "[" +++ join_messages ms +++ "]".

Definition rewritten_query : string := "What is the ticker symbol of Apple?".
Definition answer : string := "AAPL.".

(** A platform that answers every request. *)
Definition sql_up (_ : list Call) (query : string) (params : list string)
  : result (list Row) :=
  if String.eqb query COMPLETE_SQL then
    match params with
    | [_; prompt] =>
        if contains "generate a query" prompt
        then Ok [[("COMPLETE", rewritten_query)]]
        else Ok [[("COMPLETE", answer)]]
    | _ => Raise (PlatformError "wrong number of bindings")
    end
  else if String.eqb query "SHOW CORTEX SEARCH SERVICES;" then
    Ok [[("name", "STOCK_MARKET_SERVICE")]; [("name", "PROSPECTUS_SERVICE")]]
  else Ok [[("search_column", "chunk")]].

Definition search_up (_ : list Call) (service query : string) (limit : Z)
  : result (list Row) :=
  Ok [[("chunk", "Apple Inc. is listed as AAPL.")]].

(** A platform that refuses every request. *)
Definition sql_down (_ : list Call) (query : string) (params : list string)
  : result (list Row) :=
  Raise (PlatformError "statement failed").

Definition search_down (_ : list Call) (service query : string) (limit : Z)
  : result (list Row) :=
  Raise (PlatformError "search service unavailable").

(** A platform on which no search service is registered. *)
Definition sql_no_service (_ : list Call) (query : string)
  (params : list string) : result (list Row) :=
  if String.eqb query "SHOW CORTEX SEARCH SERVICES;" then Ok []
  else Ok [[("COMPLETE", answer)]].

Definition metadata : list ServiceMeta :=
  [mkServiceMeta "STOCK_MARKET_SERVICE" "chunk";
   mkServiceMeta "PROSPECTUS_SERVICE" "chunk"].

(** Metadata that names neither of the two services the script selects. *)
Definition other_metadata : list ServiceMeta :=
  [mkServiceMeta "FAQ_SERVICE" "chunk"].

Definition session (msgs : option (list Message))
  (md : option (list ServiceMeta)) (clear use_history : bool) (window : Z)
  : SessionState :=
  mkSessionState msgs md None clear false use_history "mistral-large" 5 window.

Definition user (c : string) : Message := mkMessage "user" c.
Definition assistant (c : string) : Message := mkMessage "assistant" c.

Definition seven_prior : list Message :=
  [user "q1"; assistant "a1"; user "q2"; assistant "a2";
   user "q3"; assistant "a3"; user "q4"].

Definition two_prior : list Message := [user "q1"; assistant "a1"].

Definition world (s : SessionState) : World := mkWorld s [].


End Demo.

Module Runs.

Definition question : string := "What's its exchange?".

(** Two earlier messages in the log, history on, window 5. *)
Definition w_two_prior : World :=
  Demo.world
    (Demo.session (Some Demo.two_prior) (Some Demo.metadata) false true 5).

(** The same log with the follow-up question appended and window 1. *)
Definition w_window_one : World :=
  Demo.world
    (Demo.session (Some (Demo.two_prior ++ [Demo.user "And its exchange?"]))
       (Some Demo.metadata) false true 1).

(** The same log with the follow-up question appended and window 5. *)
Definition w_window_five : World :=
  Demo.world
    (Demo.session (Some (Demo.two_prior ++ [Demo.user "And its exchange?"]))
       (Some Demo.metadata) false true 5).

(** A session with the clear button pressed. *)
Definition s_cleared : SessionState :=
  Demo.session (Some Demo.two_prior) (Some Demo.metadata) true true 5.

(** A session in its first run: no log, no descriptors yet. *)
Definition w_fresh : World :=
  Demo.world (Demo.session None None false true 5).

(** Two earlier messages in the log, history off. *)
Definition w_history_off : World :=
  Demo.world
    (Demo.session (Some (Demo.two_prior ++ [Demo.user "And its exchange?"]))
       (Some Demo.metadata) false false 5).

Definition main_up : option string -> M unit :=
  main ascii_lower Demo.str_of_messages Demo.sql_up Demo.search_up.

Definition main_down : option string -> M unit :=
  main ascii_lower Demo.str_of_messages Demo.sql_down Demo.search_up.

Definition create_prompt_up : string -> M string :=
  create_prompt ascii_lower Demo.str_of_messages Demo.sql_up Demo.search_up.

End Runs.

(* ------------------------------------------------------------------ *)
(** ** Vocabulary of the properties                                    *)
(* ------------------------------------------------------------------ *)

(** Every field but the selected service, the only key the pipeline of
    a turn writes besides the message log. *)
Definition same_config (s s' : SessionState) : Prop :=
  service_metadata s' = service_metadata s
  /\ clear_conversation s' = clear_conversation s
  /\ debug s' = debug s
  /\ use_chat_history s' = use_chat_history s
  /\ model_name s' = model_name s
  /\ num_retrieved_chunks s' = num_retrieved_chunks s
  /\ num_chat_messages s' = num_chat_messages s.

(** No discovered descriptor carries the name, compared after lowering. *)
Definition service_absent (lower : string -> string)
  (md : list ServiceMeta) (service_name : string) : Prop :=
  forall s, In s md -> lower (name s) <> lower service_name.




(** The lines that open and close a section of a prompt. *)
Definition open_line (tag : string) : string := indent +++ "<" +++ tag +++ ">".
Definition close_line (tag : string) : string :=
  indent +++ "</" +++ tag +++ ">".

Definition SECTION_TAGS : list string := ["chat_history"; "context"; "question"].

(** The number of sections [tag] of a prompt: a section opens with its
    opening line and closes with its closing line. *)
Definition sections (tag prompt : string) : nat * nat :=
  (count_lines (open_line tag) prompt, count_lines (close_line tag) prompt).


Definition is_completion_call (c : Call) : bool :=
  match c with
  | CallSql query _ => String.eqb query COMPLETE_SQL
  | CallSearch _ _ _ => false
  end.

(** The text block of the question section for [question]. *)
Definition question_section (question : string) : string :=
  ln "<question>" +++ ln question +++ ln "</question>".

(** The message log once [init_messages] has run. *)
Definition log_after_init (s : SessionState) : list Message :=
  match messages (init_messages s) with
  | Some msgs => msgs
  | None => []
  end.

(** The question as the pipeline receives it. *)
Definition without_apostrophes (question : string) : string :=
  filter_chars (fun c => negb (Ascii.eqb apostrophe c)) question.

(** The two statements of [init_service_metadata]. *)
Definition SHOW_SQL : string := "SHOW CORTEX SEARCH SERVICES;".
Definition DESC_SQL (svc_name : string) : string :=
  "DESC CORTEX SEARCH SERVICE " +++ svc_name +++ ";".

(** The text rendered for the [n]-th retrieved document. *)
Definition context_block (n : nat) (doc : string) : string :=
  "Context document " +++ str_of_nat n +++ ": " +++ doc +++ nl +++ nl.

Fixpoint concat_strings (l : list string) : string :=
  match l with
  | [] => EmptyString
  | x :: rest => x +++ concat_strings rest
  end.

(** The blocks of [docs], numbered from [first]. *)
Definition numbered_blocks (docs : list string) (first : nat) : list string :=
  map (fun nd => context_block (fst nd) (snd nd))
    (combine (seq first (length docs)) docs).

(** The value of column [col] in each row that has it. *)
Fixpoint column_values (col : string) (rows : list Row) : list string :=
  match rows with
  | [] => []
  | r :: rest =>
      match row_get col r with
      | Ok doc => doc :: column_values col rest
      | Raise _ => column_values col rest
      end
  end.

Definition has_column (col : string) (r : Row) : Prop :=
  exists doc, row_get col r = Ok doc.

(** The last [k] elements of a list, all of it when it is shorter. *)
Definition last_messages {A} (k : nat) (l : list A) : list A :=
  skipn (length l - k) l.

(** Roles alternate, starting with the user when [user_next]. *)
Fixpoint alternating_from (user_next : bool) (l : list Message) : bool :=
  match l with
  | [] => true
  | m :: rest =>
      String.eqb (role m) (if user_next then "user" else "assistant")
      && alternating_from (negb user_next) rest
  end.

(** A log of whole turns: a user message, its reply, and so on. *)
Definition whole_turns (l : list Message) : bool :=
  alternating_from true l && Nat.even (length l).

Definition SUMMARY_TAGS : list string := ["chat_history"; "question"].

Definition ANSWER_ONLY_DIRECTIVE : string :=
  "Answer with only the query. Do not add any explanation.".

(** [STRUCTURED_KEYWORDS] without the two keywords that contain
    "symbol". *)
Definition DECIDING_KEYWORDS : list string :=
  ["nasdaq traded"; "symbol"; "security name"; "listing exchange";
   "market category"; "etf"; "round lot size"; "test issue";
   "financial status"; "nextshares"].

(** The text block of the history section for the text [history]. *)
Definition history_section (history : string) : string :=
  ln "<chat_history>" +++ ln history +++ ln "</chat_history>".

Section Stages.

Variable lower : string -> string.
Variable str_of_messages : list Message -> string.
Variable platform_sql : list Call -> string -> list string -> result (list Row).
Variable platform_search :
  list Call -> string -> string -> Z -> result (list Row).

(** The retrieval and the template, for a retrieval query [query] and a
    history text [history]. *)
Definition retrieve_and_build (history query user_question : string)
  (w : World) : result string * World :=
  (match fst (query_cortex_search_service lower platform_search query w) with
   | Ok prompt_context =>
       Ok (prompt_template history prompt_context user_question)
   | Raise e => Raise e
   end,
   snd (query_cortex_search_service lower platform_search query w)).

(** The world in which the pipeline of a turn starts: the log initialised
    and the raw question appended to it. *)
Definition turn_start (question : string) (w : World) : World :=
  mkWorld
    (set_messages (log_after_init (state w) ++ [mkMessage "user" question])
       (init_messages (state w)))
    (calls w).

(** The pipeline of a turn proper: prompt, completion, reply appended. *)
Definition answer_turn (question : string) : M unit :=
  s <- get_state ;;
  prompt <- create_prompt lower str_of_messages platform_sql platform_search question ;;
  generated_response <- complete platform_sql (model_name s) prompt ;;
  append_message "assistant" generated_response.

(** The platform calls of a retrieval for [query] on world [w] and of
    the completion that follows it when the gateway returns a context:
    the prompt of that completion is the template filled with the text
    [history], the returned context and [user_question]. *)
Definition retrieval_then_completion (history query user_question : string)
  (w : World) : list Call :=
  CallSearch (select_service lower query) query
    (num_retrieved_chunks (state w))
  :: match fst (query_cortex_search_service lower platform_search query w)
     with
     | Ok prompt_context =>
         [CallSql COMPLETE_SQL
            [model_name (state w);
             prompt_template history prompt_context user_question]]
     | Raise _ => []
     end.

(** The platform calls of a turn that rewrites: the summarizer's
    completion on the window and [user_question], then, when it returns
    a summary, the retrieval for that summary and the final completion
    for [user_question]. *)
Definition rewrite_then_retrieval (chat_history : list Message)
  (user_question : string) (w : World) : list Call :=
  let history := str_of_messages chat_history in
  let summarize :=
    CallSql COMPLETE_SQL
      [model_name (state w); summary_prompt history user_question] in
  summarize
  :: match fst (complete platform_sql (model_name (state w))
                  (summary_prompt history user_question) w) with
     | Ok summary =>
         retrieval_then_completion history summary user_question
           (mkWorld (state w) (calls w ++ [summarize]))
     | Raise _ => []
     end.

End Stages.

(* ------------------------------------------------------------------ *)
(** ** Facts about the text helpers                                    *)
(* ------------------------------------------------------------------ *)

Module TextFacts.

Lemma app_assoc_s (a b c : string) : (a +++ b) +++ c = a +++ b +++ c.
Proof. induction a as [|x a IH]; simpl; [reflexivity | now rewrite IH]. Qed.

Lemma app_nil_r_s (a : string) : a +++ EmptyString = a.
Proof. induction a as [|x a IH]; simpl; [reflexivity | now rewrite IH]. Qed.

Lemma prefix_spec (k s : string) :
  String.prefix k s = true <-> exists b, s = k +++ b.
Proof.
  revert k; induction s as [|c s IH]; intros [|d k]; simpl.
  - split; [exists EmptyString; reflexivity | reflexivity].
  - split; [discriminate | intros [b Hb]; discriminate].
  - split; [exists (String c s); reflexivity | reflexivity].
  - destruct (ascii_dec d c) as [->|Hne].
    + rewrite IH. split; intros [b Hb]; exists b.
      * now rewrite Hb.
      * now inversion Hb.
    + split; [discriminate | intros [b Hb]; congruence].
Qed.

Lemma contains_here (k s : string) :
  String.prefix k s = true -> contains k s = true.
Proof. destruct s; simpl; intros ->; reflexivity. Qed.

Lemma contains_later (k : string) (c : ascii) (s : string) :
  contains k s = true -> contains k (String c s) = true.
Proof.
  intros H. change (contains k (String c s))
    with (String.prefix k (String c s) || contains k s).
  rewrite H. apply orb_true_r.
Qed.

Lemma contains_spec (k s : string) :
  contains k s = true <-> Substring k s.
Proof.
  unfold Substring. split.
  - induction s as [|c s IH].
    + change (contains k EmptyString)
        with (String.prefix k EmptyString || false).
      rewrite orb_false_r. intros H.
      apply prefix_spec in H as [b Hb]. exists EmptyString, b. exact Hb.
    + change (contains k (String c s))
        with (String.prefix k (String c s) || contains k s).
      intros H. apply orb_true_iff in H as [H|H].
      * apply prefix_spec in H as [b Hb]. exists EmptyString, b. exact Hb.
      * destruct (IH H) as (a & b & Hab).
        exists (String c a), b. simpl. now rewrite Hab.
  - intros (a & b & ->). induction a as [|c a IH].
    + apply contains_here, prefix_spec. exists b. reflexivity.
    + simpl String.append. apply contains_later, IH.
Qed.

Lemma contains_app_l (k a b : string) :
  contains k a = true -> contains k (a +++ b) = true.
Proof.
  rewrite !contains_spec. intros (x & y & ->).
  exists x, (y +++ b). now rewrite !app_assoc_s.
Qed.

Lemma contains_app_r (k a b : string) :
  contains k b = true -> contains k (a +++ b) = true.
Proof.
  rewrite !contains_spec. intros (x & y & ->).
  exists (a +++ x), y. now rewrite !app_assoc_s.
Qed.

(** Replacing a one-character string by nothing removes that character. *)
Lemma replace_char_by_nothing (c : ascii) (s : string) :
  str_replace (String c EmptyString) EmptyString s
  = filter_chars (fun d => negb (Ascii.eqb c d)) s.
Proof.
  unfold str_replace. induction s as [|d s IH]; [reflexivity|].
  simpl. destruct (ascii_dec c d) as [->|Hne].
  - rewrite Ascii.eqb_refl. simpl. destruct s; exact IH.
  - apply Ascii.eqb_neq in Hne. rewrite Hne. simpl. now rewrite IH.
Qed.

Lemma filter_chars_removes (c : ascii) (s : string) :
  has_char c (filter_chars (fun d => negb (Ascii.eqb c d)) s) = false.
Proof.
  induction s as [|d s IH]; [reflexivity|].
  simpl. destruct (Ascii.eqb c d) eqn:E; simpl; [exact IH|].
  now rewrite E, IH.
Qed.

Lemma filter_chars_id (c : ascii) (s : string) :
  has_char c s = false ->
  filter_chars (fun d => negb (Ascii.eqb c d)) s = s.
Proof.
  induction s as [|d s IH]; [reflexivity|].
  simpl. intros H. apply orb_false_iff in H as [H1 H2].
  rewrite H1. simpl. now rewrite IH.
Qed.

End TextFacts.

Import TextFacts.

(* ------------------------------------------------------------------ *)
(** ** The classifier                                                  *)
(* ------------------------------------------------------------------ *)

Section Classifier.

Variable lower : string -> string.

Lemma classify_keywords_cases (keywords : list string) (s : string) :
  classify_keywords keywords s = "structured"
  \/ classify_keywords keywords s = "unstructured".
Proof.
  induction keywords as [|k ks IH]; simpl.
  - right; reflexivity.
  - destruct (contains k s); [left; reflexivity | exact IH].
Qed.

Lemma classify_keywords_structured (keywords : list string) (s : string) :
  classify_keywords keywords s = "structured"
  <-> exists k, In k keywords /\ Substring k s.
Proof.
  induction keywords as [|k ks IH]; simpl.
  - split; [discriminate | intros (k & [] & _)].
  - destruct (contains k s) eqn:E.
    + split; [|reflexivity]. intros _. exists k. split; [now left|].
      now apply contains_spec.
    + rewrite IH. split.
      * intros (k' & Hin & Hsub). exists k'. split; [now right | exact Hsub].
      * intros (k' & [<-|Hin] & Hsub).
        -- apply contains_spec in Hsub. congruence.
        -- exists k'. split; assumption.
Qed.

(** The first keyword that matches decides, whatever follows it. *)
Lemma classify_keywords_first_match (before after : list string)
  (k s : string) :
  Forall (fun k' => contains k' s = false) before ->
  contains k s = true ->
  classify_keywords (before ++ k :: after) s = "structured".
Proof.
  induction 1 as [|k' ks Hk' _ IH]; simpl; intros Hk.
  - now rewrite Hk.
  - rewrite Hk'. now apply IH.
Qed.

(** C2. [classify_prompt] answers "structured" exactly when the lowered
    query contains one of the structured keywords as a substring, and
    "unstructured" exactly when it contains none; it always answers one
    of the two; and a query whose lowered text is empty, as that of the
    empty query is, is "unstructured". *)
Theorem classify_prompt_correct (q : string) :
  (classify_prompt lower q = "structured"
   <-> exists k, In k STRUCTURED_KEYWORDS /\ Substring k (lower q))
  /\ (classify_prompt lower q = "unstructured"
      <-> ~ exists k, In k STRUCTURED_KEYWORDS /\ Substring k (lower q))
  /\ (classify_prompt lower q = "structured"
      \/ classify_prompt lower q = "unstructured")
  /\ (q = EmptyString -> lower EmptyString = EmptyString ->
      classify_prompt lower q = "unstructured").
Proof.
  unfold classify_prompt.
  pose proof (classify_keywords_structured STRUCTURED_KEYWORDS (lower q))
    as Hs.
  pose proof (classify_keywords_cases STRUCTURED_KEYWORDS (lower q)) as Hc.
  repeat split.
  - apply Hs.
  - apply Hs.
  - intros Hu Hex. apply Hs in Hex. rewrite Hex in Hu. discriminate.
  - intros Hno. destruct Hc as [Hc|Hc]; [|exact Hc].
    exfalso. apply Hno, Hs, Hc.
  - exact Hc.
  - intros -> ->. reflexivity.
Qed.

End Classifier.

(** C2 at the empty query, with ASCII lower-casing. *)
Lemma classify_prompt_correct_witness :
  classify_prompt ascii_lower EmptyString = "unstructured".
Proof.
  apply (classify_prompt_correct ascii_lower EmptyString); reflexivity.
Defined.

Example classify_symbol :
  classify_prompt ascii_lower "What is the symbol for Apple?" = "structured".
Proof. reflexivity. Qed.

Example classify_risk_factors :
  classify_prompt ascii_lower "Summarize the risk factors section"
  = "unstructured".
Proof. reflexivity. Qed.

Example classify_upper_case :
  classify_prompt ascii_lower "List every ETF" = "structured".
Proof. reflexivity. Qed.

(* ------------------------------------------------------------------ *)
(** ** Running the monad                                               *)
(* ------------------------------------------------------------------ *)

Ltac run :=
  cbv [bind ret raise lift get_state modify sql_collect search_results];
  cbn [state calls fst snd
       messages service_metadata selected_cortex_search_service
       clear_conversation debug use_chat_history model_name
       num_retrieved_chunks num_chat_messages
       set_messages set_service_metadata set_selected_cortex_search_service].

Lemma same_config_refl (s : SessionState) : same_config s s.
Proof. repeat split. Qed.

Lemma same_config_trans (s1 s2 s3 : SessionState) :
  same_config s1 s2 -> same_config s2 s3 -> same_config s1 s3.
Proof. unfold same_config. intuition congruence. Qed.

(* ------------------------------------------------------------------ *)
(** ** The history window                                              *)
(* ------------------------------------------------------------------ *)

Lemma firstn_length_app {A} (xs ys : list A) (n : nat) :
  n = length xs -> firstn n (xs ++ ys) = xs.
Proof.
  intros ->. rewrite firstn_app, Nat.sub_diag, firstn_all. simpl.
  apply app_nil_r.
Qed.

(** With the question already appended and a window [n] of at least 1,
    [get_chat_history] returns the [n - 1] most recent prior messages,
    or all of them when there are fewer. *)
Lemma get_chat_history_window (w : World) (prior : list Message)
  (question : Message) (n : Z) :
  messages (state w) = Some (prior ++ [question]) ->
  num_chat_messages (state w) = n ->
  (1 <= n)%Z ->
  get_chat_history w
  = (Ok (skipn (length prior + 1 - Z.to_nat n) prior), w)
  /\ length (skipn (length prior + 1 - Z.to_nat n) prior)
     = Nat.min (Z.to_nat n - 1) (length prior).
Proof.
  intros Hm Hn Hr. unfold get_chat_history. run. rewrite Hm, Hn.
  unfold py_slice, clamp_index. rewrite length_app. simpl length.
  rewrite Nat2Z.inj_add. simpl Z.of_nat.
  set (len := Z.of_nat (length prior)) in *.
  set (start := Z.max 0 (len + 1 - n)).
  assert (Hs : (0 <= start <= len)%Z) by (unfold start, len; lia).
  destruct (start <? 0)%Z eqn:E1; [apply Z.ltb_lt in E1; lia|].
  destruct (len + 1 - 1 <? 0)%Z eqn:E2; [apply Z.ltb_lt in E2; lia|].
  replace (Z.min start (len + 1)) with start by lia.
  replace (Z.min (len + 1 - 1) (len + 1)) with len by lia.
  replace (Z.to_nat start) with (length prior + 1 - Z.to_nat n)%nat
    by (unfold start, len; lia).
  assert (Hk : (length prior + 1 - Z.to_nat n <= length prior)%nat) by lia.
  assert (Hlen : length (skipn (length prior + 1 - Z.to_nat n) prior)
                 = Nat.min (Z.to_nat n - 1) (length prior))
    by (rewrite length_skipn; lia).
  split; [|exact Hlen].
  rewrite skipn_app.
  replace (length prior + 1 - Z.to_nat n - length prior)%nat with 0%nat by lia.
  simpl skipn. rewrite firstn_length_app; [reflexivity|].
  rewrite Hlen. unfold start, len. lia.
Qed.

(** With a window of at least 2, the history is empty only when no
    message precedes the question. *)
Lemma get_chat_history_nonempty (w : World) (prior : list Message)
  (question : Message) :
  messages (state w) = Some (prior ++ [question]) ->
  (2 <= num_chat_messages (state w))%Z ->
  (exists h hs, get_chat_history w = (Ok (h :: hs), w)) <-> prior <> [].
Proof.
  intros Hm Hn.
  destruct (get_chat_history_window w prior question
              (num_chat_messages (state w)) Hm eq_refl ltac:(lia))
    as [Hrun Hlen].
  rewrite Hrun. split.
  - intros (h & hs & Heq) ->. inversion Heq as [Hnil].
    rewrite skipn_nil in Hnil. discriminate.
  - intros Hne.
    destruct (skipn _ prior) as [|h hs] eqn:E; [|eauto].
    exfalso. simpl in Hlen. destruct prior; [contradiction|].
    simpl length in Hlen. lia.
Qed.

(** Whatever the window, a log that holds only the question just asked
    has an empty history. *)
Lemma get_chat_history_fresh (w : World) (question : Message) :
  messages (state w) = Some [question] ->
  get_chat_history w = (Ok [], w).
Proof.
  intros Hm. unfold get_chat_history. run. rewrite Hm.
  unfold py_slice, clamp_index. simpl length. simpl Z.of_nat.
  set (lo := if (Z.max 0 (1 - num_chat_messages (state w)) <? 0)%Z
             then _ else _).
  assert (Hlo : (0 <= lo)%Z).
  { unfold lo. destruct (_ <? 0)%Z; lia. }
  change (1 - 1)%Z with 0%Z.
  change (if (0 <? 0)%Z then Z.max 0 (0 + 1) else Z.min 0 1) with 0%Z.
  replace (Z.to_nat (0 - lo)) with 0%nat by lia. reflexivity.
Qed.

(** C3. With seven prior messages, the question appended and a window
    of 5, [get_chat_history] returns the four most recent prior messages
    (a2, q3, a3, q4), not five. *)
Theorem get_chat_history_seven_prior_window_five :
  get_chat_history
    (Demo.world
       (Demo.session (Some (Demo.seven_prior ++ [Demo.user "q5"]))
          (Some Demo.metadata) false true 5))
  = (Ok [Demo.assistant "a2"; Demo.user "q3"; Demo.assistant "a3";
         Demo.user "q4"],
     Demo.world
       (Demo.session (Some (Demo.seven_prior ++ [Demo.user "q5"]))
          (Some Demo.metadata) false true 5)).
Proof. reflexivity. Qed.

(* ------------------------------------------------------------------ *)
(** ** The search gateway                                              *)
(* ------------------------------------------------------------------ *)

Section Gateway.

Variable lower : string -> string.
Variable platform_search :
  list Call -> string -> string -> Z -> result (list Row).

Lemma search_columns_empty (md : list ServiceMeta) (service_name : string) :
  map search_column
    (filter (fun s => String.eqb (lower (name s)) (lower service_name)) md)
  = []
  <-> service_absent lower md service_name.
Proof.
  unfold service_absent. induction md as [|d md IH]; simpl.
  - split; [intros _ s [] | reflexivity].
  - destruct (String.eqb_spec (lower (name d)) (lower service_name))
      as [He|Hne]; simpl.
    + split; [discriminate|]. intros H. exfalso. apply (H d); auto.
    + rewrite IH. split.
      * intros H s [<-|Hin]; auto.
      * intros H s Hin. apply H. now right.
Qed.

Lemma row_get_raises (key : string) (r : Row) (e : Exn) :
  row_get key r = Raise e -> e = KeyError key.
Proof.
  induction r as [|[k v] r IH]; simpl; intros H.
  - now inversion H.
  - destruct (String.eqb k key); [discriminate | auto].
Qed.

(** Rendering the retrieved rows can only fail on a missing column. *)
Lemma render_context_raises (search_col : string) (results : list Row)
  (i : nat) (context_str : string) (e : Exn) :
  render_context search_col results i context_str = Raise e ->
  e = KeyError search_col.
Proof.
  revert i context_str.
  induction results as [|r rs IH]; simpl; intros i acc He.
  - discriminate.
  - destruct (row_get search_col r) eqn:Eg.
    + eapply IH; eauto.
    + inversion He; subst. eapply row_get_raises; eauto.
Qed.

(** C4, as the code has it.  Once the descriptor set is in the session
    state: if the platform search call returns, the gateway raises
    [ValueError] exactly when the selected service is absent from the
    descriptors (names compared case-insensitively), and then with the
    not-found message; and whether or not the platform call returns, an
    absent service never yields a context string. *)
Theorem search_not_found_iff_absent (query : string) (w : World)
  (md : list ServiceMeta) :
  service_metadata (state w) = Some md ->
  let service_name := select_service lower query in
  let r := fst (query_cortex_search_service lower platform_search query w) in
  (forall results,
      platform_search (calls w) service_name query
        (num_retrieved_chunks (state w)) = Ok results ->
      ((exists msg, r = Raise (ValueError msg))
       <-> service_absent lower md service_name)
      /\ (service_absent lower md service_name ->
          r = Raise (ValueError (not_found_message service_name))))
  /\ (service_absent lower md service_name ->
      forall context_str, r <> Ok context_str).
Proof.
  intros Hmd service_name r.
  unfold r, query_cortex_search_service. run. fold service_name.
  pose proof (search_columns_empty md service_name) as Hcols.
  split.
  - intros results ->. cbn [fst]. rewrite Hmd.
    destruct (map search_column _) as [|col cols] eqn:E.
    + cbn [fst]. split; [|intros _; reflexivity].
      split; [intros _; now apply Hcols | intros _; eauto].
    + cbn [fst].
      assert (Hpresent : ~ service_absent lower md service_name).
      { intros Ha. apply Hcols in Ha. discriminate. }
      split; [|intros Ha; contradiction].
      split; [|intros Ha; contradiction].
      intros [msg Hmsg]. apply render_context_raises in Hmsg.
      discriminate.
  - intros Ha context_str. apply Hcols in Ha.
    destruct (platform_search _ _ _ _); cbn [fst]; [|discriminate].
    rewrite Hmd, Ha. cbn [fst]. discriminate.
Qed.

End Gateway.

Lemma demo_other_metadata_absent :
  service_absent ascii_lower Demo.other_metadata
    (select_service ascii_lower "hello").
Proof. intros s [<-|[]]. vm_compute. discriminate. Qed.

(** C4 as stated fails: when the platform search call itself raises, an
    absent service surfaces as the platform's error, not as the
    not-found error. *)
Lemma search_not_found_counterexample :
  let w := Demo.world
             (Demo.session (Some [Demo.user "hello"])
                (Some Demo.other_metadata) false true 5) in
  let r := fst (query_cortex_search_service ascii_lower Demo.search_down
                  "hello" w) in
  r = Raise (PlatformError "search service unavailable")
  /\ ~ ((exists msg, r = Raise (ValueError msg))
        <-> service_absent ascii_lower Demo.other_metadata
              (select_service ascii_lower "hello")).
Proof.
  intros w r. split; [reflexivity|].
  intros [_ H]. destruct (H demo_other_metadata_absent) as [msg Hmsg].
  vm_compute in Hmsg. discriminate.
Qed.

(** C4 on a platform that answers the search: the service the script
    selects for "hello" is not among the descriptors, and the gateway
    raises the not-found error. *)
Lemma search_not_found_iff_absent_witness :
  fst (query_cortex_search_service ascii_lower Demo.search_up "hello"
         (Demo.world
            (Demo.session (Some [Demo.user "hello"])
               (Some Demo.other_metadata) false true 5)))
  = Raise (ValueError (not_found_message "prospectus_service")).
Proof.
  refine (proj2
            (proj1
               (search_not_found_iff_absent ascii_lower Demo.search_up
                  "hello"
                  (Demo.world
                     (Demo.session (Some [Demo.user "hello"])
                        (Some Demo.other_metadata) false true 5))
                  Demo.other_metadata eq_refl)
               [[("chunk", "Apple Inc. is listed as AAPL.")]] eq_refl)
            demo_other_metadata_absent).
Defined.

(* ------------------------------------------------------------------ *)
(** ** The prompt builder                                              *)
(* ------------------------------------------------------------------ *)

Module PromptFacts.

Lemma lines_of_nonempty (s : string) : lines_of s <> [].
Proof.
  induction s as [|c s IH]; simpl; [discriminate|].
  destruct (Ascii.eqb c _); [discriminate|].
  destruct (lines_of s); discriminate.
Qed.

Lemma lines_of_app_nl (a b : string) :
  lines_of (a +++ nl +++ b) = lines_of a ++ lines_of b.
Proof.
  induction a as [|c a IH].
  - reflexivity.
  - change ((String c a) +++ nl +++ b) with (String c (a +++ nl +++ b)).
    cbn [lines_of]. rewrite IH.
    destruct (Ascii.eqb c _); [reflexivity|].
    pose proof (lines_of_nonempty a) as Hne.
    destruct (lines_of a) as [|l ls]; [contradiction | reflexivity].
Qed.

Lemma count_lines_nl (line rest : string) :
  count_lines line (nl +++ rest)
  = count_lines line EmptyString + count_lines line rest.
Proof.
  unfold count_lines.
  change (nl +++ rest) with (EmptyString +++ nl +++ rest).
  now rewrite lines_of_app_nl, count_occ_app.
Qed.

Lemma count_lines_ln (line s rest : string) :
  count_lines line (ln s +++ rest)
  = count_lines line (indent +++ s) + count_lines line rest.
Proof.
  unfold count_lines, ln.
  replace ((indent +++ s +++ nl) +++ rest)
    with ((indent +++ s) +++ nl +++ rest)
    by (now rewrite !app_assoc_s).
  now rewrite lines_of_app_nl, count_occ_app.
Qed.

Lemma has_char_app (c : ascii) (a b : string) :
  has_char c (a +++ b) = has_char c a || has_char c b.
Proof.
  induction a as [|d a IH]; simpl; [reflexivity|].
  now rewrite IH, orb_assoc.
Qed.

Lemma lines_of_no_char (c : ascii) (s : string) :
  has_char c s = false ->
  Forall (fun l => has_char c l = false) (lines_of s).
Proof.
  induction s as [|d s IH]; simpl; intros H.
  - now constructor.
  - apply orb_false_iff in H as [Hd Hs]. specialize (IH Hs).
    destruct (Ascii.eqb d _).
    + constructor; [reflexivity | exact IH].
    + destruct (lines_of s) as [|l ls]; constructor.
      * simpl. now rewrite Hd.
      * constructor.
      * simpl. rewrite Hd. now inversion IH.
      * now inversion IH.
Qed.

(** A line that has a character the text lacks is no line of the text. *)
Lemma count_lines_no_char (c : ascii) (line s : string) :
  has_char c line = true -> has_char c s = false -> count_lines line s = 0.
Proof.
  intros Hline Hs. unfold count_lines. apply count_occ_not_In.
  intros Hin. pose proof (lines_of_no_char c s Hs) as Hall.
  rewrite Forall_forall in Hall. specialize (Hall _ Hin). congruence.
Qed.


End PromptFacts.

Import PromptFacts.

Lemma section_line_cases (tag : string) :
  In tag SECTION_TAGS ->
  forall line, line = open_line tag \/ line = close_line tag ->
  count_lines line (prompt_template EmptyString EmptyString EmptyString) = 1
  /\ count_lines line (indent +++ EmptyString) = 0
  /\ has_char lt_sign line = true.
Proof.
  intros Htag line Hline.
  repeat (destruct Htag as [<-|Htag]; [destruct Hline as [->| ->];
    vm_compute; repeat split|]).
  destruct Htag.
Qed.


Lemma section_line_absent (tag s line : string) :
  In tag SECTION_TAGS ->
  line = open_line tag \/ line = close_line tag ->
  has_char lt_sign s = false ->
  count_lines line (indent +++ s) = 0.
Proof.
  intros Htag Hline Hs.
  destruct (section_line_cases tag Htag line Hline) as (_ & _ & Hlt).
  apply (count_lines_no_char lt_sign); [exact Hlt|].
  rewrite has_char_app, Hs. reflexivity.
Qed.




(* ------------------------------------------------------------------ *)
(** ** The pipeline of a turn                                          *)
(* ------------------------------------------------------------------ *)

Lemma substring_app_r (k a b : string) :
  Substring k b -> Substring k (a +++ b).
Proof.
  intros (x & y & ->). exists (a +++ x), y. now rewrite !app_assoc_s.
Qed.

Lemma prompt_template_question (h c q : string) :
  Substring (question_section q) (prompt_template h c q).
Proof.
  unfold prompt_template. do 19 apply substring_app_r.
  exists EmptyString, (ln "[/INST]" +++ ln "Answer:" +++ "    ").
  unfold question_section. now rewrite !app_assoc_s.
Qed.

Lemma bind_run {A B} (m : M A) (f : A -> M B) (w : World) :
  bind m f w
  = match fst (m w) with
    | Ok a => f a (snd (m w))
    | Raise e => (Raise e, snd (m w))
    end.
Proof. unfold bind. destruct (m w) as [[a|e] w']; reflexivity. Qed.

Section Pipeline.

Variable lower : string -> string.
Variable str_of_messages : list Message -> string.
Variable platform_sql : list Call -> string -> list string -> result (list Row).
Variable platform_search :
  list Call -> string -> string -> Z -> result (list Row).

Local Abbreviation complete' := (complete platform_sql).
Local Abbreviation query' := (query_cortex_search_service lower platform_search).
Local Abbreviation create_prompt' :=
  (create_prompt lower str_of_messages platform_sql platform_search).
Local Abbreviation main' :=
  (main lower str_of_messages platform_sql platform_search).
Local Abbreviation init_service_metadata' := (init_service_metadata platform_sql).
Local Abbreviation retrieve_and_build' :=
  (retrieve_and_build lower platform_search).

(** *** What each stage does to the world *)

Lemma complete_world (model prompt : string) (w : World) :
  snd (complete' model prompt w)
  = mkWorld (state w) (calls w ++ [CallSql COMPLETE_SQL [model; prompt]]).
Proof.
  unfold complete. run.
  destruct (platform_sql _ _ _) as [rows|e]; [|reflexivity].
  destruct (first_row rows) as [row|e]; [|reflexivity].
  reflexivity.
Qed.

Lemma query_world (query : string) (w : World) :
  snd (query' query w)
  = mkWorld
      (set_selected_cortex_search_service (select_service lower query)
         (state w))
      (calls w
       ++ [CallSearch (select_service lower query) query
             (num_retrieved_chunks (state w))]).
Proof.
  unfold query_cortex_search_service. run.
  destruct (platform_search _ _ _ _) as [results|e]; [|reflexivity].
  destruct (service_metadata (state w)) as [md|]; [|reflexivity].
  destruct (map search_column _); reflexivity.
Qed.

Lemma get_chat_history_world (w : World) : snd (get_chat_history w) = w.
Proof.
  unfold get_chat_history. run.
  destruct (messages (state w)); reflexivity.
Qed.

(** *** The three ways through [create_prompt] *)

Lemma create_prompt_history_off (user_question : string) (w : World) :
  use_chat_history (state w) = false ->
  create_prompt' user_question w
  = retrieve_and_build' EmptyString user_question user_question w.
Proof.
  intros Hoff. unfold create_prompt, retrieve_and_build.
  rewrite bind_run. cbn [get_state fst snd]. rewrite Hoff.
  rewrite bind_run. destruct (fst (query' _ _)); reflexivity.
Qed.

Lemma create_prompt_history_empty (user_question : string) (w : World) :
  use_chat_history (state w) = true ->
  get_chat_history w = (Ok [], w) ->
  create_prompt' user_question w
  = retrieve_and_build' (str_of_messages []) user_question user_question w.
Proof.
  intros Hon Hhist. unfold create_prompt, retrieve_and_build.
  rewrite bind_run. cbn [get_state fst snd]. rewrite Hon.
  rewrite bind_run, Hhist. cbn [fst snd].
  rewrite bind_run. destruct (fst (query' _ _)); reflexivity.
Qed.

Lemma create_prompt_history_rewrite (user_question : string) (w : World)
  (chat_history : list Message) :
  use_chat_history (state w) = true ->
  get_chat_history w = (Ok chat_history, w) ->
  chat_history <> [] ->
  create_prompt' user_question w
  = match fst (complete' (model_name (state w))
                 (summary_prompt (str_of_messages chat_history)
                    user_question) w) with
    | Ok question_summary =>
        retrieve_and_build' (str_of_messages chat_history) question_summary
          user_question
          (mkWorld (state w)
             (calls w
              ++ [CallSql COMPLETE_SQL
                    [model_name (state w);
                     summary_prompt (str_of_messages chat_history)
                       user_question]]))
    | Raise e =>
        (Raise e,
         mkWorld (state w)
           (calls w
            ++ [CallSql COMPLETE_SQL
                  [model_name (state w);
                   summary_prompt (str_of_messages chat_history)
                     user_question]]))
    end.
Proof.
  intros Hon Hhist Hne. unfold create_prompt, retrieve_and_build.
  rewrite bind_run. cbn [get_state fst snd]. rewrite Hon.
  rewrite bind_run, Hhist. cbn [fst snd].
  destruct chat_history as [|h hs]; [contradiction|].
  rewrite bind_run. unfold make_chat_history_summary.
  rewrite bind_run. cbn [get_state fst snd].
  rewrite bind_run, complete_world.
  destruct (fst (complete' _ _ _)) as [summary|e]; cbn [ret fst snd];
    [|reflexivity].
  rewrite bind_run. destruct (fst (query' _ _)); reflexivity.
Qed.

Lemma create_prompt_no_log (user_question : string) (w : World) :
  use_chat_history (state w) = true ->
  messages (state w) = None ->
  create_prompt' user_question w = (Raise (AttributeError "messages"), w).
Proof.
  intros Hon Hnone. unfold create_prompt.
  rewrite bind_run. cbn [get_state fst snd]. rewrite Hon.
  rewrite bind_run. unfold get_chat_history. run. rewrite Hnone.
  reflexivity.
Qed.

Lemma get_chat_history_cases (w : World) :
  (messages (state w) = None)
  \/ exists chat_history, get_chat_history w = (Ok chat_history, w).
Proof.
  unfold get_chat_history. run.
  destruct (messages (state w)); [right; eauto | left; reflexivity].
Qed.

Lemma retrieve_and_build_world (history query user_question : string)
  (w : World) :
  snd (retrieve_and_build' history query user_question w)
  = mkWorld
      (set_selected_cortex_search_service (select_service lower query)
         (state w))
      (calls w
       ++ [CallSearch (select_service lower query) query
             (num_retrieved_chunks (state w))]).
Proof. unfold retrieve_and_build. cbn [snd]. apply query_world. Qed.

Lemma retrieve_and_build_result (history query user_question : string)
  (w : World) (p : string) :
  fst (retrieve_and_build' history query user_question w) = Ok p ->
  exists prompt_context,
    p = prompt_template history prompt_context user_question.
Proof.
  unfold retrieve_and_build. cbn [fst].
  destruct (fst (query' _ _)) as [ctx|e]; [|discriminate].
  intros H. inversion H. eauto.
Qed.

(** [create_prompt] leaves the message log and the configuration as they
    were, only adds platform calls, and any prompt it returns is the
    template filled with the question it was given. *)
Lemma create_prompt_frame (user_question : string) (w : World) :
  let rw := create_prompt' user_question w in
  messages (state (snd rw)) = messages (state w)
  /\ same_config (state w) (state (snd rw))
  /\ (exists new_calls, calls (snd rw) = calls w ++ new_calls)
  /\ (forall p, fst rw = Ok p ->
        exists history prompt_context,
          p = prompt_template history prompt_context user_question).
Proof.
  intros rw. subst rw.
  destruct (use_chat_history (state w)) eqn:Hon.
  - destruct (get_chat_history_cases w) as [Hnone|[hist Hhist]].
    + rewrite create_prompt_no_log by assumption. cbn [fst snd].
      repeat split; [exists []; now rewrite app_nil_r | discriminate].
    + destruct hist as [|h hs].
      * rewrite create_prompt_history_empty by assumption.
        rewrite retrieve_and_build_world. cbn [state calls].
        repeat split; [eauto|].
        intros p Hp. apply retrieve_and_build_result in Hp as [ctx ->].
        eauto.
      * rewrite (create_prompt_history_rewrite _ _ (h :: hs))
          by (assumption || discriminate).
        destruct (fst (complete' _ _ _)) as [summary|e].
        -- rewrite retrieve_and_build_world. cbn [state calls].
           repeat split; [rewrite <- app_assoc; eauto|].
           intros p Hp. apply retrieve_and_build_result in Hp as [ctx ->].
           eauto.
        -- cbn [fst snd state calls].
           repeat split; [eauto | discriminate].
  - rewrite create_prompt_history_off by assumption.
    rewrite retrieve_and_build_world. cbn [state calls].
    repeat split; [eauto|].
    intros p Hp. apply retrieve_and_build_result in Hp as [ctx ->]. eauto.
Qed.

End Pipeline.

(* ------------------------------------------------------------------ *)
(** ** The controller                                                  *)
(* ------------------------------------------------------------------ *)

Lemma init_messages_log (s : SessionState) :
  messages (init_messages s) = Some (log_after_init s).
Proof.
  unfold log_after_init, init_messages.
  destruct (clear_conversation s); [reflexivity|].
  destruct (messages s) eqn:E; cbn [orb]; [now rewrite E | reflexivity].
Qed.

Lemma init_messages_config (s : SessionState) :
  same_config s (init_messages s)
  /\ selected_cortex_search_service (init_messages s)
     = selected_cortex_search_service s.
Proof.
  unfold init_messages.
  destruct (_ || _); split;
    solve [apply same_config_refl | reflexivity | repeat split].
Qed.

Lemma append_message_run (r c : string) (w : World) (msgs : list Message) :
  messages (state w) = Some msgs ->
  append_message r c w
  = (Ok tt, mkWorld (set_messages (msgs ++ [mkMessage r c]) (state w))
              (calls w)).
Proof. intros Hm. unfold append_message. run. now rewrite Hm. Qed.

Section Controller.

Variable lower : string -> string.
Variable str_of_messages : list Message -> string.
Variable platform_sql : list Call -> string -> list string -> result (list Row).
Variable platform_search :
  list Call -> string -> string -> Z -> result (list Row).

Local Abbreviation complete' := (complete platform_sql).
Local Abbreviation create_prompt' :=
  (create_prompt lower str_of_messages platform_sql platform_search).
Local Abbreviation main' :=
  (main lower str_of_messages platform_sql platform_search).
Local Abbreviation init_service_metadata' :=
  (init_service_metadata platform_sql).
Local Abbreviation answer_turn' :=
  (answer_turn lower str_of_messages platform_sql platform_search).

Lemma init_service_metadata_populated (w : World)
  (md : list ServiceMeta) :
  service_metadata (state w) = Some md ->
  init_service_metadata' w = (Ok tt, w).
Proof.
  intros Hmd. unfold init_service_metadata. run. now rewrite Hmd.
Qed.

(** A run of [main] with a question, once the services are discovered
    and at least one exists: the raw question goes to the log, the
    question without apostrophes to the pipeline. *)
Lemma main_turn (question : string) (w : World) (md : list ServiceMeta) :
  service_metadata (state w) = Some md ->
  md <> [] ->
  question <> EmptyString ->
  main' (Some question) w
  = answer_turn' (without_apostrophes question) (turn_start question w).
Proof.
  intros Hmd Hne Hq. unfold main.
  rewrite bind_run, (init_service_metadata_populated w md Hmd).
  cbn [fst snd]. unfold init_config_options.
  rewrite bind_run. cbn [ret fst snd].
  rewrite bind_run. cbn [modify fst snd].
  rewrite bind_run. cbn [get_state fst snd state].
  destruct (init_messages_config (state w)) as [(Hsm & _) _].
  rewrite Hsm, Hmd.
  destruct md as [|d md]; [contradiction|]. cbn [length Nat.eqb].
  destruct question as [|c question]; [contradiction|].
  cbn [chat_input].
  rewrite bind_run.
  rewrite (append_message_run _ _ _ (log_after_init (state w)))
    by apply init_messages_log.
  cbn [fst snd state calls].
  change "'" with (String apostrophe EmptyString).
  rewrite replace_char_by_nothing. reflexivity.
Qed.

(** *** The log after a turn *)

Lemma answer_turn_log (question : string) (w : World)
  (msgs : list Message) :
  messages (state w) = Some msgs ->
  let rw := answer_turn' question w in
  match fst rw with
  | Ok _ =>
      exists reply,
        messages (state (snd rw)) = Some (msgs ++ [mkMessage "assistant" reply])
  | Raise _ => messages (state (snd rw)) = Some msgs
  end.
Proof.
  intros Hm rw. subst rw. unfold answer_turn.
  rewrite bind_run. cbn [get_state fst snd].
  rewrite bind_run.
  destruct (create_prompt_frame lower str_of_messages platform_sql
              platform_search question w) as (Hlog & _ & _ & _).
  destruct (fst (create_prompt' question w)) as [prompt|e]; cbn [fst snd].
  - rewrite bind_run.
    pose proof (complete_world platform_sql (model_name (state w)) prompt
                  (snd (create_prompt' question w))) as Hw.
    destruct (fst (complete' _ _ _)) as [reply|e]; cbn [fst snd].
    + rewrite (append_message_run _ _ _ msgs)
        by (rewrite Hw; cbn [state]; congruence).
      cbn [fst snd state set_messages messages]. eauto.
    + rewrite Hw. cbn [state]. congruence.
  - congruence.
Qed.

(** C1, as the code has it.  In a run that accepts a question, the user
    message is appended before the pipeline starts and the assistant
    reply after it has succeeded: on success the log is the prior log,
    then the user message, then the reply; when a stage of the pipeline
    raises, the log is the prior log followed by the user message. *)
Theorem turn_appends_question_then_reply (question : string) (w : World)
  (md : list ServiceMeta) :
  service_metadata (state w) = Some md ->
  md <> [] ->
  question <> EmptyString ->
  let rw := main' (Some question) w in
  match fst rw with
  | Ok _ =>
      exists reply,
        messages (state (snd rw))
        = Some (log_after_init (state w)
                ++ [mkMessage "user" question; mkMessage "assistant" reply])
  | Raise _ =>
      messages (state (snd rw))
      = Some (log_after_init (state w) ++ [mkMessage "user" question])
  end.
Proof.
  intros Hmd Hne Hq rw. subst rw.
  rewrite (main_turn question w md Hmd Hne Hq).
  pose proof (answer_turn_log (without_apostrophes question)
                (turn_start question w)
                (log_after_init (state w) ++ [mkMessage "user" question])
                eq_refl) as H.
  cbv zeta in H.
  destruct (fst (answer_turn' _ _)); [|exact H].
  destruct H as [reply H]. exists reply. rewrite H.
  now rewrite <- app_assoc.
Qed.

End Controller.

(* ------------------------------------------------------------------ *)
(** ** History-aware rewriting, clearing and discovery                 *)
(* ------------------------------------------------------------------ *)

Section Turn.

Variable lower : string -> string.
Variable str_of_messages : list Message -> string.
Variable platform_sql : list Call -> string -> list string -> result (list Row).
Variable platform_search :
  list Call -> string -> string -> Z -> result (list Row).

Local Abbreviation complete' := (complete platform_sql).
Local Abbreviation create_prompt' :=
  (create_prompt lower str_of_messages platform_sql platform_search).
Local Abbreviation init_service_metadata' :=
  (init_service_metadata platform_sql).

(** With history use off, [create_prompt] makes one platform call, the
    retrieval for the question as given; the summarizer's completion is
    not among its calls. *)
Lemma create_prompt_history_off_calls (user_question : string) (w : World) :
  use_chat_history (state w) = false ->
  calls (snd (create_prompt' user_question w))
  = calls w
    ++ [CallSearch (select_service lower user_question) user_question
          (num_retrieved_chunks (state w))].
Proof.
  intros Hoff. rewrite create_prompt_history_off by assumption.
  now rewrite retrieve_and_build_world.
Qed.

(** The summarizer's completion is among the calls of [create_prompt]
    exactly when history use is on and the window that
    [get_chat_history] returns is not empty. *)
Lemma summarizer_called_iff_window (user_question : string) (w : World) :
  existsb is_completion_call
    (skipn (length (calls w)) (calls (snd (create_prompt' user_question w))))
  = true
  <-> use_chat_history (state w) = true
      /\ exists h hs, get_chat_history w = (Ok (h :: hs), w).
Proof.
  destruct (use_chat_history (state w)) eqn:Hon.
  - destruct (get_chat_history_cases w) as [Hnone|[hist Hhist]].
    + rewrite create_prompt_no_log by assumption. cbn [snd].
      rewrite skipn_all. cbn [existsb].
      split; [discriminate|]. intros (_ & h & hs & Hh).
      unfold get_chat_history in Hh. revert Hh. run. rewrite Hnone.
      discriminate.
    + destruct hist as [|h hs].
      * rewrite create_prompt_history_empty by assumption.
        rewrite retrieve_and_build_world. cbn [calls].
        rewrite skipn_app, skipn_all, Nat.sub_diag.
        cbn [skipn app existsb is_completion_call orb].
        split; [discriminate|]. intros (_ & h & hs & Hh). congruence.
      * rewrite (create_prompt_history_rewrite _ _ _ _ _ _ (h :: hs))
          by (assumption || discriminate).
        split; [intros _; eauto|]. intros _.
        destruct (fst (complete' _ _ _)).
        -- rewrite retrieve_and_build_world. cbn [calls].
           rewrite <- app_assoc, skipn_app, skipn_all, Nat.sub_diag.
           reflexivity.
        -- cbn [snd calls].
           rewrite skipn_app, skipn_all, Nat.sub_diag. reflexivity.
  - rewrite create_prompt_history_off_calls by assumption.
    rewrite skipn_app, skipn_all, Nat.sub_diag.
    cbn [skipn app existsb is_completion_call orb].
    split; [discriminate | intros [H _]; discriminate].
Qed.

(** C7.  When the history window is not empty and the summarizer
    returns a rewritten query, that query is the one sent to retrieval,
    and the prompt that [create_prompt] returns and that is sent to the
    completion service is the template filled with the question as
    asked: its question section holds the question, not the rewrite. *)
Theorem rewritten_query_only_for_retrieval (user_question : string)
  (w : World) (chat_history : list Message) (summary : string) :
  use_chat_history (state w) = true ->
  get_chat_history w = (Ok chat_history, w) ->
  chat_history <> [] ->
  fst (complete' (model_name (state w))
         (summary_prompt (str_of_messages chat_history) user_question) w)
  = Ok summary ->
  let rw := create_prompt' user_question w in
  calls (snd rw)
  = calls w
    ++ [CallSql COMPLETE_SQL
          [model_name (state w);
           summary_prompt (str_of_messages chat_history) user_question];
        CallSearch (select_service lower summary) summary
          (num_retrieved_chunks (state w))]
  /\ (forall prompt,
        fst rw = Ok prompt ->
        (exists prompt_context,
            prompt = prompt_template (str_of_messages chat_history)
                       prompt_context user_question)
        /\ Substring (question_section user_question) prompt
        /\ calls (snd ((p <- create_prompt' user_question ;;
                        complete' (model_name (state w)) p) w))
           = calls (snd rw)
             ++ [CallSql COMPLETE_SQL [model_name (state w); prompt]]).
Proof.
  intros Hon Hhist Hne Hsum rw. subst rw.
  rewrite (create_prompt_history_rewrite _ _ _ _ _ _ chat_history)
    by assumption.
  rewrite bind_run.
  rewrite (create_prompt_history_rewrite _ _ _ _ _ _ chat_history)
    by assumption.
  rewrite Hsum. cbv beta iota.
  rewrite retrieve_and_build_world. cbn [calls state].
  split; [now rewrite <- app_assoc|].
  intros prompt Hp. rewrite Hp. cbv beta iota.
  destruct (retrieve_and_build_result _ _ _ _ _ _ _ Hp) as [ctx ->].
  split; [eauto|]. split; [apply prompt_template_question|].
  rewrite complete_world. reflexivity.
Qed.

(** C8.  With the clear button pressed, [init_messages] empties the
    log and changes no other key of the session state; the next
    question, in that run or in a later one, then finds an empty history,
    so that its pipeline makes the retrieval call for the question and no
    summarizer call. *)
Theorem clear_conversation_empties_log_only (s : SessionState) :
  clear_conversation s = true ->
  messages (init_messages s) = Some []
  /\ model_name (init_messages s) = model_name s
  /\ num_retrieved_chunks (init_messages s) = num_retrieved_chunks s
  /\ num_chat_messages (init_messages s) = num_chat_messages s
  /\ use_chat_history (init_messages s) = use_chat_history s
  /\ debug (init_messages s) = debug s
  /\ service_metadata (init_messages s) = service_metadata s
  /\ selected_cortex_search_service (init_messages s)
     = selected_cortex_search_service s
  /\ clear_conversation (init_messages s) = clear_conversation s
  /\ forall (pressed : bool) (question : string) (made : list Call),
       let w :=
         turn_start question
           (mkWorld (set_clear_conversation pressed (init_messages s))
              made) in
       messages (state w) = Some [mkMessage "user" question]
       /\ get_chat_history w = (Ok [], w)
       /\ forall asked,
            calls (snd (create_prompt' asked w))
            = made
              ++ [CallSearch (select_service lower asked) asked
                    (num_retrieved_chunks s)].
Proof.
  intros Hclear.
  assert (Hinit : init_messages s = set_messages [] s)
    by (unfold init_messages; now rewrite Hclear).
  rewrite Hinit. do 9 (split; [reflexivity|]).
  intros pressed question made w.
  assert (Hnext : init_messages
                    (set_clear_conversation pressed (set_messages [] s))
                  = set_clear_conversation pressed (set_messages [] s)).
  { unfold init_messages. destruct pressed; reflexivity. }
  assert (Hw : messages (state w) = Some [mkMessage "user" question]).
  { unfold w, turn_start, log_after_init. cbn [state]. now rewrite Hnext. }
  assert (Hchunks : num_retrieved_chunks (state w) = num_retrieved_chunks s).
  { unfold w, turn_start. cbn [state]. now rewrite Hnext. }
  split; [exact Hw|].
  pose proof (get_chat_history_fresh w _ Hw) as Hhist.
  split; [exact Hhist|]. intros asked.
  destruct (use_chat_history (state w)) eqn:Hon.
  - rewrite create_prompt_history_empty by assumption.
    rewrite retrieve_and_build_world. cbn [calls]. now rewrite Hchunks.
  - rewrite create_prompt_history_off_calls by assumption.
    now rewrite Hchunks.
Qed.

(** A successful discovery leaves the descriptor set in the session
    state. *)
Lemma init_service_metadata_populates (w : World) :
  fst (init_service_metadata' w) = Ok tt ->
  exists md, service_metadata (state (snd (init_service_metadata' w)))
             = Some md.
Proof.
  unfold init_service_metadata. rewrite bind_run.
  cbn [get_state fst snd].
  destruct (service_metadata (state w)) as [md|] eqn:Hmd.
  - intros _. cbn [ret snd]. eauto.
  - rewrite bind_run.
    destruct (fst (sql_collect _ _ _ _)) as [services|e];
      [|discriminate].
    rewrite bind_run.
    destruct (fst (describe_services _ _ _ _)) as [found|e];
      [|discriminate].
    intros _. cbn [modify snd state set_service_metadata service_metadata].
    eauto.
Qed.

(** C9.  With the descriptor set already in the session state,
    [init_service_metadata] changes nothing and asks the platform
    nothing; hence running it twice in a row is running it once. *)
Theorem init_service_metadata_idempotent :
  (forall (w : World) (md : list ServiceMeta),
      service_metadata (state w) = Some md ->
      init_service_metadata' w = (Ok tt, w))
  /\ (forall w : World,
        (init_service_metadata' ;; init_service_metadata') w
        = init_service_metadata' w).
Proof.
  split.
  - intros w md Hmd. unfold init_service_metadata. run. now rewrite Hmd.
  - intros w. rewrite bind_run.
    pose proof (init_service_metadata_populates w) as Hpop.
    destruct (init_service_metadata' w) as [[[]|e] w'] eqn:E;
      cbn [fst snd] in *; [|reflexivity].
    destruct (Hpop eq_refl) as [md Hmd].
    unfold init_service_metadata. run. now rewrite Hmd.
Qed.

End Turn.

(* ------------------------------------------------------------------ *)
(** ** The script on the concrete platform                             *)
(* ------------------------------------------------------------------ *)

(** C1 on a platform that answers: the log gains the question and then
    the reply. *)
Lemma turn_appends_question_then_reply_witness :
  let rw := Runs.main_up (Some Runs.question) Runs.w_two_prior in
  match fst rw with
  | Ok _ =>
      exists reply,
        messages (state (snd rw))
        = Some (log_after_init (state Runs.w_two_prior)
                ++ [mkMessage "user" Runs.question;
                    mkMessage "assistant" reply])
  | Raise _ =>
      messages (state (snd rw))
      = Some (log_after_init (state Runs.w_two_prior)
              ++ [mkMessage "user" Runs.question])
  end.
Proof.
  apply (turn_appends_question_then_reply ascii_lower Demo.str_of_messages
           Demo.sql_up Demo.search_up Runs.question Runs.w_two_prior
           Demo.metadata).
  - reflexivity.
  - discriminate.
  - discriminate.
Defined.

Example turn_on_answering_platform :
  let rw := Runs.main_up (Some Runs.question) Runs.w_two_prior in
  fst rw = Ok tt
  /\ messages (state (snd rw))
     = Some (Demo.two_prior
             ++ [Demo.user "What's its exchange?"; Demo.assistant "AAPL."]).
Proof. split; reflexivity. Qed.

(** C1 as stated fails: when the completion service refuses, the run
    raises and the log is no longer what it was before the turn, since
    the user message has been appended. *)
Lemma turn_failure_keeps_user_message_counterexample :
  let rw := Runs.main_down (Some Runs.question) Runs.w_two_prior in
  fst rw = Raise (PlatformError "statement failed")
  /\ messages (state (snd rw))
     = Some (Demo.two_prior ++ [Demo.user "What's its exchange?"])
  /\ ~ ((exists e, fst rw = Raise e) ->
        messages (state (snd rw)) = messages (state Runs.w_two_prior)).
Proof.
  intros rw. split; [reflexivity|]. split; [reflexivity|].
  intros H. assert (He : exists e, fst rw = Raise e) by (eexists; reflexivity).
  specialize (H He). vm_compute in H. discriminate.
Qed.

(** C6 fails on the code: history use is on and two messages precede
    the question, yet with a window of 1 [get_chat_history] returns the
    empty list and [create_prompt] makes the retrieval call for the raw
    question only; no summarizer completion is among its calls. *)
Theorem summarizer_skipped_with_window_one :
  use_chat_history (state Runs.w_window_one) = true
  /\ messages (state Runs.w_window_one)
     = Some (Demo.two_prior ++ [Demo.user "And its exchange?"])
  /\ get_chat_history Runs.w_window_one = (Ok [], Runs.w_window_one)
  /\ calls (snd (Runs.create_prompt_up "And its exchange?"
                   Runs.w_window_one))
     = [CallSearch "prospectus_service" "And its exchange?" 5]
  /\ existsb is_completion_call
       (calls (snd (Runs.create_prompt_up "And its exchange?"
                      Runs.w_window_one)))
     = false.
Proof. repeat split. Qed.

(** The same log with a window of 5: the summarizer is called and its
    output goes to retrieval. *)
Example summarizer_called_with_window_five :
  map is_completion_call
    (calls (snd (Runs.create_prompt_up "And its exchange?"
                   Runs.w_window_five)))
  = [true; false].
Proof. reflexivity. Qed.

(** C7 on the concrete platform: the summarizer's rewrite goes to
    retrieval, the question as asked into the prompt. *)
Lemma rewritten_query_only_for_retrieval_witness :
  let rw := Runs.create_prompt_up "And its exchange?" Runs.w_window_five in
  calls (snd rw)
  = calls Runs.w_window_five
    ++ [CallSql COMPLETE_SQL
          [model_name (state Runs.w_window_five);
           summary_prompt (Demo.str_of_messages Demo.two_prior)
             "And its exchange?"];
        CallSearch (select_service ascii_lower Demo.rewritten_query)
          Demo.rewritten_query
          (num_retrieved_chunks (state Runs.w_window_five))]
  /\ (forall prompt,
        fst rw = Ok prompt ->
        (exists prompt_context,
            prompt = prompt_template (Demo.str_of_messages Demo.two_prior)
                       prompt_context "And its exchange?")
        /\ Substring (question_section "And its exchange?") prompt
        /\ calls (snd ((p <- Runs.create_prompt_up "And its exchange?" ;;
                        complete Demo.sql_up
                          (model_name (state Runs.w_window_five)) p)
                         Runs.w_window_five))
           = calls (snd rw)
             ++ [CallSql COMPLETE_SQL
                   [model_name (state Runs.w_window_five); prompt]]).
Proof.
  apply (rewritten_query_only_for_retrieval ascii_lower Demo.str_of_messages
           Demo.sql_up Demo.search_up "And its exchange?"
           Runs.w_window_five Demo.two_prior Demo.rewritten_query).
  - reflexivity.
  - reflexivity.
  - discriminate.
  - reflexivity.
Defined.

(** C8 on a session with two messages in the log. *)
Lemma clear_conversation_empties_log_only_witness :
  messages (init_messages Runs.s_cleared) = Some []
  /\ model_name (init_messages Runs.s_cleared) = "mistral-large"
  /\ service_metadata (init_messages Runs.s_cleared) = Some Demo.metadata.
Proof.
  pose proof (clear_conversation_empties_log_only ascii_lower
                Demo.str_of_messages Demo.sql_up Demo.search_up
                Runs.s_cleared eq_refl)
    as (Hlog & Hmodel & _ & _ & _ & _ & Hmd & _).
  split; [exact Hlog|]. split; [exact Hmodel | exact Hmd].
Defined.

(** C9 on a session whose descriptors are already discovered. *)
Lemma init_service_metadata_idempotent_witness :
  init_service_metadata Demo.sql_up Runs.w_two_prior
  = (Ok tt, Runs.w_two_prior).
Proof.
  apply (proj1 (init_service_metadata_idempotent Demo.sql_up)
           Runs.w_two_prior Demo.metadata).
  reflexivity.
Defined.

Example discovery_on_answering_platform :
  let rw := init_service_metadata Demo.sql_up
              (Demo.world (Demo.session None None false true 5)) in
  fst rw = Ok tt
  /\ service_metadata (state (snd rw)) = Some Demo.metadata
  /\ length (calls (snd rw)) = 3.
Proof. repeat split. Qed.

(* ------------------------------------------------------------------ *)
(** ** Further properties: rendering, history window, completion       *)
(* ------------------------------------------------------------------ *)

Lemma row_get_cases (key : string) (r : Row) :
  (exists doc, row_get key r = Ok doc) \/ row_get key r = Raise (KeyError key).
Proof.
  destruct (row_get key r) as [doc|e] eqn:E; [left; eauto|].
  right. now rewrite (row_get_raises _ _ _ E).
Qed.

Lemma render_context_acc (col : string) (rows : list Row) (i : nat)
  (acc : string) :
  Forall (has_column col) rows ->
  render_context col rows i acc
  = Ok (acc +++ concat_strings
                  (numbered_blocks (column_values col rows) (i + 1))).
Proof.
  intros Hall. revert i acc.
  induction Hall as [|r rows [doc Hdoc] _ IH]; intros i acc.
  - cbn [render_context column_values]. unfold numbered_blocks.
    cbn [length seq combine map concat_strings]. now rewrite app_nil_r_s.
  - cbn [render_context column_values]. rewrite Hdoc. cbv beta iota.
    rewrite IH. f_equal. unfold numbered_blocks.
    cbn [length seq combine map concat_strings fst snd].
    replace (S i + 1) with (S (i + 1)) by lia.
    unfold context_block. now rewrite !app_assoc_s.
Qed.

Lemma render_context_missing (col : string) (rows : list Row) (i : nat)
  (acc : string) :
  Exists (fun r => row_get col r = Raise (KeyError col)) rows ->
  render_context col rows i acc = Raise (KeyError col).
Proof.
  intros Hex. revert i acc.
  induction Hex as [r rows Hr|r rows _ IH]; intros i acc; simpl.
  - now rewrite Hr.
  - destruct (row_get_cases col r) as [[doc ->]| ->]; [apply IH|reflexivity].
Qed.

Lemma column_values_length (col : string) (rows : list Row) :
  Forall (has_column col) rows ->
  length (column_values col rows) = length rows.
Proof.
  induction 1 as [|r rows [doc Hdoc] _ IH]; simpl; [reflexivity|].
  rewrite Hdoc. simpl. now rewrite IH.
Qed.

(** X1.  The loop that renders the retrieved rows gives one numbered
    block per row, in order and counted from 1, when every row has the
    search column; when some row lacks it, it raises [KeyError] for that
    column and no text is returned. *)
Theorem render_context_blocks (col : string) (rows : list Row) :
  (Forall (has_column col) rows ->
   render_context col rows 0 EmptyString
   = Ok (concat_strings (numbered_blocks (column_values col rows) 1))
   /\ length (numbered_blocks (column_values col rows) 1) = length rows)
  /\ (Exists (fun r => row_get col r = Raise (KeyError col)) rows ->
      render_context col rows 0 EmptyString = Raise (KeyError col)).
Proof.
  split.
  - intros Hall. split.
    + now rewrite (render_context_acc col rows 0 EmptyString Hall).
    + unfold numbered_blocks.
      rewrite length_map, length_combine, length_seq, Nat.min_id.
      now apply column_values_length.
  - apply render_context_missing.
Qed.

Lemma render_context_blocks_witness :
  render_context "chunk"
    [[("chunk", "A")]; [("score", "1"); ("chunk", "B")]] 0 EmptyString
  = Ok (context_block 1 "A" +++ context_block 2 "B")
  /\ render_context "chunk" [[("chunk", "A")]; [("score", "1")]] 0
       EmptyString
     = Raise (KeyError "chunk").
Proof.
  split.
  - apply (render_context_blocks "chunk"
             [[("chunk", "A")]; [("score", "1"); ("chunk", "B")]]).
    repeat constructor; eexists; reflexivity.
  - apply (render_context_blocks "chunk"
             [[("chunk", "A")]; [("score", "1")]]).
    apply Exists_cons_tl, Exists_cons_hd. reflexivity.
Defined.

Lemma last_messages_skipn {A} (l : list A) (k : nat) :
  last_messages (Nat.min k (length l)) l = skipn (length l - k) l.
Proof. unfold last_messages. f_equal. lia. Qed.

(** X2.  For every log and every window [n], positive or not,
    [get_chat_history] returns the last [min (n - 1) (len - 1)] messages
    that precede the final one (none when that number is not positive),
    leaves the world as it is and does not raise; without a [messages]
    key it raises [AttributeError]. *)
Theorem get_chat_history_last_prior (w : World) :
  (forall msgs,
      messages (state w) = Some msgs ->
      get_chat_history w
      = (Ok (last_messages
               (Z.to_nat
                  (Z.min (num_chat_messages (state w) - 1)
                     (Z.of_nat (length msgs) - 1)))
               (removelast msgs)),
         w))
  /\ (messages (state w) = None ->
      get_chat_history w = (Raise (AttributeError "messages"), w)).
Proof.
  split.
  - intros msgs Hm.
    destruct (Z_le_gt_dec 1 (num_chat_messages (state w))) as [Hn|Hn].
    + destruct msgs as [|m ms] using rev_ind.
      * unfold get_chat_history. run. rewrite Hm.
        unfold py_slice, last_messages. cbn [removelast].
        now rewrite !skipn_nil, firstn_nil.
      * clear IHms. rename ms into prior.
        destruct (get_chat_history_window w prior m
                    (num_chat_messages (state w)) Hm eq_refl Hn)
          as [Hrun _].
        rewrite Hrun, removelast_last, length_app. simpl length.
        unfold last_messages. do 3 f_equal. lia.
    + unfold get_chat_history. run. rewrite Hm.
      unfold py_slice, clamp_index, last_messages.
      set (len := Z.of_nat (length msgs)).
      assert (Hlen : (0 <= len)%Z) by (unfold len; lia).
      replace (Z.to_nat (Z.min (num_chat_messages (state w) - 1) (len - 1)))
        with 0%nat by lia.
      rewrite Nat.sub_0_r, skipn_all.
      destruct (Z.max 0 (len - num_chat_messages (state w)) <? 0)%Z eqn:E1;
        [apply Z.ltb_lt in E1; lia|].
      replace (Z.min (Z.max 0 (len - num_chat_messages (state w))) len)
        with len by lia.
      destruct (len - 1 <? 0)%Z eqn:E2.
      * replace (Z.to_nat (Z.max 0 (len - 1 + len) - len)) with 0%nat by lia.
        reflexivity.
      * replace (Z.to_nat (Z.min (len - 1) len - len)) with 0%nat by lia.
        reflexivity.
  - intros Hm. unfold get_chat_history. run. now rewrite Hm.
Qed.

Lemma get_chat_history_last_prior_witness :
  get_chat_history Runs.w_window_five
  = (Ok Demo.two_prior, Runs.w_window_five).
Proof.
  apply (proj1 (get_chat_history_last_prior Runs.w_window_five)
           (Demo.two_prior ++ [Demo.user "And its exchange?"])).
  reflexivity.
Defined.

Section Completion.

Variable platform_sql : list Call -> string -> list string -> result (list Row).

(** X3.  [complete] sends one statement with the model and the prompt as
    bindings and leaves the session state as it is; it returns the first
    cell of the first row, raises [IndexError] when the platform returns
    no row or a row without cells, and passes on the platform's own
    error. *)
Theorem complete_first_cell (model prompt : string) (w : World) :
  let answer := platform_sql (calls w) COMPLETE_SQL [model; prompt] in
  let rw := complete platform_sql model prompt w in
  snd rw
  = mkWorld (state w) (calls w ++ [CallSql COMPLETE_SQL [model; prompt]])
  /\ (forall v,
        fst rw = Ok v
        <-> exists col row rows, answer = Ok (((col, v) :: row) :: rows))
  /\ (answer = Ok [] -> fst rw = Raise IndexError)
  /\ (forall rows, answer = Ok ([] :: rows) -> fst rw = Raise IndexError)
  /\ (forall e, answer = Raise e -> fst rw = Raise e).
Proof.
  intros answer rw. subst answer rw. unfold complete. run.
  destruct (platform_sql _ _ _) as [[|[|[col v] row] rows]|e];
    cbn [first_row first_column fst snd]; repeat split;
    try discriminate; try congruence.
  - intros (c & r & rs & H). discriminate.
  - intros (c & r & rs & H). discriminate.
  - intros H. inversion H. eauto.
  - intros (c & r & rs & H). now inversion H.
  - intros (c & r & rs & H). discriminate.
Qed.

End Completion.

Lemma complete_first_cell_witness :
  fst (complete Demo.sql_up "mistral-large" "Hello" (Demo.world
         (Demo.session (Some []) (Some Demo.metadata) false true 5)))
  = Ok Demo.answer.
Proof.
  apply (complete_first_cell Demo.sql_up "mistral-large" "Hello").
  exists "COMPLETE", [], []. reflexivity.
Defined.

(** X4.  [init_messages] always leaves a log in the session state: the
    log it found when the clear button is not pressed, an empty one when
    the button is pressed or no log exists yet; no other key changes, the
    selected service included, and running it again changes nothing
    more. *)
Theorem init_messages_keeps_log_unless_cleared (s : SessionState) :
  (clear_conversation s = false ->
   forall msgs, messages s = Some msgs -> init_messages s = s)
  /\ (clear_conversation s = true -> init_messages s = set_messages [] s)
  /\ (messages s = None -> init_messages s = set_messages [] s)
  /\ (clear_conversation s = true \/ messages s = None ->
      messages (init_messages s) = Some [])
  /\ (exists msgs, messages (init_messages s) = Some msgs)
  /\ same_config s (init_messages s)
  /\ selected_cortex_search_service (init_messages s)
     = selected_cortex_search_service s
  /\ init_messages (init_messages s) = init_messages s.
Proof.
  assert (Hcases : (init_messages s = set_messages [] s
                    /\ (clear_conversation s = true \/ messages s = None))
                   \/ (init_messages s = s
                       /\ clear_conversation s = false
                       /\ exists l, messages s = Some l)).
  { unfold init_messages.
    destruct (clear_conversation s); [left; auto|].
    destruct (messages s) as [l|]; cbn [orb]; [right; eauto | left; auto]. }
  destruct Hcases as [[H Hwhy]|(H & Hc & l & Hm)].
  - split; [|split; [|split; [|split; [|split; [|split; [|split]]]]]].
    + intros Hc msgs Hm. destruct Hwhy; congruence.
    + intros _. exact H.
    + intros _. exact H.
    + intros _. now rewrite H.
    + exists []. now rewrite H.
    + rewrite H. repeat split.
    + now rewrite H.
    + rewrite H. unfold init_messages.
      cbn [clear_conversation set_messages messages orb].
      destruct (clear_conversation s); reflexivity.
  - split; [|split; [|split; [|split; [|split; [|split; [|split]]]]]].
    + intros _ msgs _. exact H.
    + congruence.
    + congruence.
    + intros [Hx|Hx]; congruence.
    + exists l. now rewrite H.
    + rewrite H. apply same_config_refl.
    + now rewrite H.
    + now rewrite !H.
Qed.

Lemma init_messages_keeps_log_unless_cleared_witness :
  init_messages (state Runs.w_two_prior) = state Runs.w_two_prior
  /\ messages (init_messages Runs.s_cleared) = Some [].
Proof.
  split.
  - apply (proj1 (init_messages_keeps_log_unless_cleared
                    (state Runs.w_two_prior)) eq_refl Demo.two_prior).
    reflexivity.
  - destruct (init_messages_keeps_log_unless_cleared Runs.s_cleared)
      as (_ & _ & _ & Hempty & _).
    apply Hempty. left. reflexivity.
Defined.

(* ------------------------------------------------------------------ *)
(** ** Further properties: discovery and runs without a question       *)
(* ------------------------------------------------------------------ *)

Section Discovery.

Variable lower : string -> string.
Variable str_of_messages : list Message -> string.
Variable platform_sql : list Call -> string -> list string -> result (list Row).
Variable platform_search :
  list Call -> string -> string -> Z -> result (list Row).

Local Abbreviation describe' := (describe_services platform_sql).
Local Abbreviation init' := (init_service_metadata platform_sql).
Local Abbreviation main' :=
  (main lower str_of_messages platform_sql platform_search).

Lemma describe_services_step (s : Row) (rest : list Row)
  (acc : list ServiceMeta) (w : World) :
  describe' (s :: rest) acc w
  = match row_get "name" s with
    | Raise e => (Raise e, w)
    | Ok svc_name =>
        let w1 := mkWorld (state w)
                    (calls w ++ [CallSql (DESC_SQL svc_name) []]) in
        match platform_sql (calls w) (DESC_SQL svc_name) [] with
        | Raise e => (Raise e, w1)
        | Ok rows =>
            match first_row rows with
            | Raise e => (Raise e, w1)
            | Ok row =>
                match row_get "search_column" row with
                | Raise e => (Raise e, w1)
                | Ok col =>
                    describe' rest (acc ++ [mkServiceMeta svc_name col]) w1
                end
            end
        end
    end.
Proof.
  cbn [describe_services]. run. unfold DESC_SQL.
  destruct (row_get "name" s) as [svc_name|e]; [|reflexivity].
  cbn [fst snd].
  destruct (platform_sql _ _ _) as [rows|e]; [|reflexivity].
  destruct (first_row rows) as [row|e]; [|reflexivity].
  destruct (row_get "search_column" row); reflexivity.
Qed.

Lemma describe_services_state (rows : list Row) (acc : list ServiceMeta)
  (w : World) :
  state (snd (describe' rows acc w)) = state w.
Proof.
  revert acc w. induction rows as [|s rest IH]; intros acc w.
  - reflexivity.
  - rewrite describe_services_step.
    destruct (row_get "name" s) as [svc_name|e]; [|reflexivity].
    cbv zeta.
    destruct (platform_sql _ _ _) as [rows|e]; [|reflexivity].
    destruct (first_row rows) as [row|e]; [|reflexivity].
    destruct (row_get "search_column" row); [|reflexivity].
    now rewrite IH.
Qed.

Lemma describe_services_ok (rows : list Row) (acc md : list ServiceMeta)
  (w : World) :
  fst (describe' rows acc w) = Ok md ->
  exists found,
    md = acc ++ found
    /\ Forall2 (fun row d => row_get "name" row = Ok (name d)) rows found
    /\ calls (snd (describe' rows acc w))
       = calls w ++ map (fun d => CallSql (DESC_SQL (name d)) []) found.
Proof.
  revert acc w. induction rows as [|s rest IH]; intros acc w.
  - cbn. intros H. inversion H. exists [].
    now rewrite !app_nil_r; repeat split; constructor.
  - rewrite describe_services_step.
    destruct (row_get "name" s) as [svc_name|e] eqn:Hname; [|discriminate].
    cbv zeta.
    destruct (platform_sql _ _ _) as [rows|e]; [|discriminate].
    destruct (first_row rows) as [row|e]; [|discriminate].
    destruct (row_get "search_column" row) as [col|e]; [|discriminate].
    intros H. destruct (IH _ _ H) as (found & -> & Hall & Hcalls).
    exists (mkServiceMeta svc_name col :: found).
    split; [now rewrite <- app_assoc|].
    split; [constructor; assumption|].
    rewrite Hcalls. cbn [calls map name]. now rewrite <- app_assoc.
Qed.

Lemma init_service_metadata_run (w : World) :
  service_metadata (state w) = None ->
  init' w
  = match platform_sql (calls w) SHOW_SQL [] with
    | Raise e =>
        (Raise e, mkWorld (state w) (calls w ++ [CallSql SHOW_SQL []]))
    | Ok services =>
        let rw := describe' services []
                    (mkWorld (state w) (calls w ++ [CallSql SHOW_SQL []])) in
        match fst rw with
        | Raise e => (Raise e, snd rw)
        | Ok md =>
            (Ok tt,
             mkWorld (set_service_metadata md (state (snd rw)))
               (calls (snd rw)))
        end
    end.
Proof.
  intros Hnone. unfold init_service_metadata.
  rewrite bind_run. cbn [get_state fst snd]. rewrite Hnone.
  rewrite bind_run. unfold sql_collect at 1 2. cbn [fst snd].
  fold SHOW_SQL.
  destruct (platform_sql _ _ _) as [services|e]; [|reflexivity].
  cbv zeta. rewrite bind_run.
  destruct (fst (describe' _ _ _)); reflexivity.
Qed.

(** X5.  When the descriptor set is not yet in the session state,
    a discovery that succeeds stores one descriptor per listed service,
    in the order listed and under the listed names, after one [SHOW]
    statement and one [DESC] statement per service, and writes no other
    key; a discovery that raises leaves the whole session state as it
    was, with no descriptor set stored. *)
Theorem discovery_outcome (w : World) :
  service_metadata (state w) = None ->
  (fst (init' w) = Ok tt ->
   exists services md,
     platform_sql (calls w) SHOW_SQL [] = Ok services
     /\ state (snd (init' w)) = set_service_metadata md (state w)
     /\ Forall2 (fun row d => row_get "name" row = Ok (name d)) services md
     /\ calls (snd (init' w))
        = calls w
          ++ CallSql SHOW_SQL []
             :: map (fun d => CallSql (DESC_SQL (name d)) []) md)
  /\ (forall e, fst (init' w) = Raise e -> state (snd (init' w)) = state w).
Proof.
  intros Hnone. rewrite (init_service_metadata_run w Hnone).
  destruct (platform_sql _ _ _) as [services|e0].
  - cbv zeta.
    pose proof (describe_services_state services []
                  (mkWorld (state w) (calls w ++ [CallSql SHOW_SQL []])))
      as Hstate.
    pose proof (describe_services_ok services []) as Hok.
    destruct (fst (describe' services [] _)) as [md|e0] eqn:E.
    + split; [|discriminate]. intros _.
      destruct (Hok md _ E) as (found & Hmd & Hall & Hcalls).
      cbn [app] in Hmd. subst found.
      exists services, md. cbn [fst snd state calls].
      split; [reflexivity|]. split; [now rewrite Hstate|].
      split; [exact Hall|].
      rewrite Hcalls. cbn [calls]. now rewrite <- app_assoc.
    + split; [discriminate|]. intros e _. cbn [snd]. exact Hstate.
  - split; [discriminate|]. intros e _. reflexivity.
Qed.

Lemma init_failure_state (w : World) (e : Exn) :
  fst (init' w) = Raise e -> state (snd (init' w)) = state w.
Proof.
  destruct (service_metadata (state w)) as [md|] eqn:Hmd.
  - rewrite (init_service_metadata_populated _ w md Hmd). discriminate.
  - rewrite (init_service_metadata_run w Hmd).
    destruct (platform_sql _ _ _) as [services|e0]; [|reflexivity].
    cbv zeta.
    pose proof (describe_services_state services []
                  (mkWorld (state w) (calls w ++ [CallSql SHOW_SQL []])))
      as Hstate.
    destruct (fst (describe' services [] _)); [discriminate|].
    intros _. exact Hstate.
Qed.

Lemma main_after_ok_discovery (typed : option string) (w : World) :
  fst (init' w) = Ok tt -> main' typed w = main' typed (snd (init' w)).
Proof.
  intros Hok.
  destruct (init_service_metadata_populates _ w Hok) as [md Hmd].
  unfold main at 1 2. rewrite !bind_run, Hok.
  now rewrite (init_service_metadata_populated _ _ md Hmd).
Qed.

(** X6.  A run of the script is its discovery followed by the run on
    the world the discovery leaves: when discovery raises, the run raises
    the same error and the session state is as before the run (no log is
    created, nothing is appended); when it succeeds, the rest of the run
    is the run with the descriptors already in the session state. *)
Theorem main_after_discovery (typed : option string) (w : World) :
  (forall e,
      fst (init' w) = Raise e ->
      main' typed w = (Raise e, snd (init' w))
      /\ state (snd (main' typed w)) = state w)
  /\ (fst (init' w) = Ok tt ->
      main' typed w = main' typed (snd (init' w))).
Proof.
  split.
  - intros e He. unfold main at 1 2. rewrite !bind_run, He.
    split; [reflexivity|]. cbn [snd]. now apply init_failure_state with e.
  - apply main_after_ok_discovery.
Qed.

Lemma main_without_question (typed : option string) (w : World)
  (md : list ServiceMeta) :
  service_metadata (state w) = Some md ->
  chat_input (Nat.eqb (length md) 0) typed = None ->
  main' typed w = (Ok tt, mkWorld (init_messages (state w)) (calls w)).
Proof.
  intros Hmd Hin. unfold main.
  rewrite bind_run, (init_service_metadata_populated _ w md Hmd).
  cbn [fst snd]. unfold init_config_options.
  rewrite bind_run. cbn [ret fst snd].
  rewrite bind_run. cbn [modify fst snd].
  rewrite bind_run. cbn [get_state fst snd state].
  destruct (init_messages_config (state w)) as [(Hsm & _) _].
  rewrite Hsm, Hmd, Hin. reflexivity.
Qed.

(** X7.  With the descriptors in the session state, a run in which no
    question is accepted (no service was discovered, nothing was
    submitted, or the submission is empty) only initialises the log: it
    calls the platform for nothing and appends no message. *)
Theorem run_without_question (typed : option string) (w : World)
  (md : list ServiceMeta) :
  service_metadata (state w) = Some md ->
  md = [] \/ typed = None \/ typed = Some EmptyString ->
  main' typed w = (Ok tt, mkWorld (init_messages (state w)) (calls w)).
Proof.
  intros Hmd Hwhy. apply (main_without_question typed w md Hmd).
  destruct Hwhy as [-> | [-> | ->]]; [reflexivity| |];
    destruct (Nat.eqb (length md) 0); reflexivity.
Qed.

(** X8.  When the platform lists no search service, the first run
    stores the empty descriptor set after the single [SHOW] statement and
    then ignores whatever was submitted: the question is neither appended
    to the log nor sent to the platform. *)
Theorem no_service_disables_chat (typed : option string) (w : World) :
  service_metadata (state w) = None ->
  platform_sql (calls w) SHOW_SQL [] = Ok [] ->
  main' typed w
  = (Ok tt,
     mkWorld (init_messages (set_service_metadata [] (state w)))
       (calls w ++ [CallSql SHOW_SQL []])).
Proof.
  intros Hnone Hshow.
  assert (Hinit : init' w
                  = (Ok tt,
                     mkWorld (set_service_metadata [] (state w))
                       (calls w ++ [CallSql SHOW_SQL []]))).
  { rewrite (init_service_metadata_run w Hnone), Hshow. reflexivity. }
  rewrite main_after_ok_discovery by (now rewrite Hinit).
  rewrite Hinit. cbn [snd].
  exact (main_without_question typed
           (mkWorld (set_service_metadata [] (state w))
              (calls w ++ [CallSql SHOW_SQL []]))
           [] eq_refl eq_refl).
Qed.

End Discovery.

Lemma discovery_outcome_witness :
  (exists services md,
      Demo.sql_up (calls Runs.w_fresh) SHOW_SQL [] = Ok services
      /\ state (snd (init_service_metadata Demo.sql_up Runs.w_fresh))
         = set_service_metadata md (state Runs.w_fresh)
      /\ Forall2 (fun row d => row_get "name" row = Ok (name d)) services md
      /\ calls (snd (init_service_metadata Demo.sql_up Runs.w_fresh))
         = calls Runs.w_fresh
           ++ CallSql SHOW_SQL []
              :: map (fun d => CallSql (DESC_SQL (name d)) []) md)
  /\ state (snd (init_service_metadata Demo.sql_down Runs.w_fresh))
     = state Runs.w_fresh.
Proof.
  split.
  - apply (discovery_outcome Demo.sql_up Runs.w_fresh); reflexivity.
  - apply (proj2 (discovery_outcome Demo.sql_down Runs.w_fresh eq_refl)
             (PlatformError "statement failed")).
    reflexivity.
Defined.

Lemma main_after_discovery_witness :
  Runs.main_down (Some Runs.question) Runs.w_fresh
  = (Raise (PlatformError "statement failed"),
     snd (init_service_metadata Demo.sql_down Runs.w_fresh))
  /\ Runs.main_up (Some Runs.question) Runs.w_fresh
     = Runs.main_up (Some Runs.question)
         (snd (init_service_metadata Demo.sql_up Runs.w_fresh)).
Proof.
  split.
  - apply (proj1 (main_after_discovery ascii_lower Demo.str_of_messages
                    Demo.sql_down Demo.search_up (Some Runs.question)
                    Runs.w_fresh)
             (PlatformError "statement failed")).
    reflexivity.
  - apply (proj2 (main_after_discovery ascii_lower Demo.str_of_messages
                    Demo.sql_up Demo.search_up (Some Runs.question)
                    Runs.w_fresh)).
    reflexivity.
Defined.

Lemma run_without_question_witness :
  Runs.main_up None Runs.w_two_prior = (Ok tt, Runs.w_two_prior).
Proof.
  apply (run_without_question ascii_lower Demo.str_of_messages Demo.sql_up
           Demo.search_up None Runs.w_two_prior Demo.metadata).
  - reflexivity.
  - right. left. reflexivity.
Defined.

Lemma no_service_disables_chat_witness :
  main ascii_lower Demo.str_of_messages Demo.sql_no_service Demo.search_up
    (Some Runs.question) Runs.w_fresh
  = (Ok tt,
     mkWorld (init_messages (set_service_metadata [] (state Runs.w_fresh)))
       (calls Runs.w_fresh ++ [CallSql SHOW_SQL []])).
Proof.
  apply (no_service_disables_chat ascii_lower Demo.str_of_messages
           Demo.sql_no_service Demo.search_up (Some Runs.question)
           Runs.w_fresh).
  - reflexivity.
  - reflexivity.
Defined.

(* ------------------------------------------------------------------ *)
(** ** Further properties: routing, descriptors and the two prompts    *)
(* ------------------------------------------------------------------ *)

Section Routing.

Variable lower : string -> string.
Variable str_of_messages : list Message -> string.
Variable platform_sql : list Call -> string -> list string -> result (list Row).
Variable platform_search :
  list Call -> string -> string -> Z -> result (list Row).

Local Abbreviation query' := (query_cortex_search_service lower platform_search).
Local Abbreviation create_prompt' :=
  (create_prompt lower str_of_messages platform_sql platform_search).

Lemma select_service_cases (query : string) :
  ((exists k, In k STRUCTURED_KEYWORDS /\ Substring k (lower query))
   /\ select_service lower query = STRUCTURED_SERVICE)
  \/ ((~ exists k, In k STRUCTURED_KEYWORDS /\ Substring k (lower query))
      /\ select_service lower query = UNSTRUCTURED_SERVICE).
Proof.
  unfold select_service, classify_prompt.
  pose proof (classify_keywords_structured STRUCTURED_KEYWORDS (lower query))
    as Hs.
  destruct (classify_keywords_cases STRUCTURED_KEYWORDS (lower query))
    as [Hc|Hc]; rewrite Hc.
  - left. split; [now apply Hs | reflexivity].
  - right. split; [|reflexivity].
    intros Hex. apply Hs in Hex. rewrite Hex in Hc. discriminate.
Qed.

(** X9.  Whether or not it succeeds, the gateway makes exactly one
    platform call: a search for the query text, limited to the configured
    number of chunks, on the stock-market service when the lowered query
    contains a structured keyword and on the prospectus service
    otherwise.  It records that service in the session state and leaves
    the log and the configuration as they were. *)
Theorem search_is_routed_by_keyword (query : string) (w : World) :
  let rw := query' query w in
  exists service,
    calls (snd rw)
    = calls w ++ [CallSearch service query (num_retrieved_chunks (state w))]
    /\ selected_cortex_search_service (state (snd rw)) = Some service
    /\ messages (state (snd rw)) = messages (state w)
    /\ same_config (state w) (state (snd rw))
    /\ ((exists k, In k STRUCTURED_KEYWORDS /\ Substring k (lower query))
        -> service = STRUCTURED_SERVICE)
    /\ ((~ exists k, In k STRUCTURED_KEYWORDS /\ Substring k (lower query))
        -> service = UNSTRUCTURED_SERVICE).
Proof.
  intros rw. subst rw. exists (select_service lower query).
  rewrite query_world. cbn [state calls].
  split; [reflexivity|]. split; [reflexivity|]. split; [reflexivity|].
  split; [repeat split|].
  destruct (select_service_cases query) as [[Hk ->]|[Hk ->]]; split;
    intros H; try reflexivity; contradiction.
Qed.

(** X10.  Once the platform search has returned, the gateway renders
    the rows with the search column of the first descriptor whose name
    matches the selected service case-insensitively, later descriptors
    of the same name being ignored; with no row returned the context is
    the empty text. *)
Theorem search_uses_first_matching_descriptor (query : string) (w : World)
  (before after : list ServiceMeta) (d : ServiceMeta) (results : list Row) :
  service_metadata (state w) = Some (before ++ d :: after) ->
  service_absent lower before (select_service lower query) ->
  lower (name d) = lower (select_service lower query) ->
  platform_search (calls w) (select_service lower query) query
    (num_retrieved_chunks (state w)) = Ok results ->
  fst (query' query w) = render_context (search_column d) results 0 EmptyString
  /\ (results = [] -> fst (query' query w) = Ok EmptyString).
Proof.
  intros Hmd Habs Hd Hres.
  assert (Hrun : fst (query' query w)
                 = render_context (search_column d) results 0 EmptyString).
  { unfold query_cortex_search_service. run. rewrite Hres. cbn [fst].
    rewrite Hmd, filter_app, map_app.
    apply (search_columns_empty lower) in Habs. rewrite Habs.
    cbn [filter app]. rewrite Hd, String.eqb_refl. reflexivity. }
  split; [exact Hrun|]. intros ->. exact Hrun.
Qed.

Lemma prompt_template_history (h c q : string) :
  Substring (history_section h) (prompt_template h c q).
Proof.
  unfold prompt_template. do 13 apply substring_app_r.
  eexists EmptyString, _. unfold history_section.
  rewrite !app_assoc_s. reflexivity.
Qed.

(** X11.  With history use off, a prompt that [create_prompt] returns
    has an empty history section, whatever the log holds, and its context
    is the gateway's text for the question as given; with history use on
    and an empty window, the history section holds the rendering of the
    empty list. *)
Theorem prompt_history_without_rewrite (user_question : string) (w : World)
  (prompt : string) :
  fst (create_prompt' user_question w) = Ok prompt ->
  (use_chat_history (state w) = false ->
   exists prompt_context,
     fst (query' user_question w) = Ok prompt_context
     /\ prompt = prompt_template EmptyString prompt_context user_question
     /\ Substring (history_section EmptyString) prompt)
  /\ (use_chat_history (state w) = true ->
      get_chat_history w = (Ok [], w) ->
      exists prompt_context,
        fst (query' user_question w) = Ok prompt_context
        /\ prompt = prompt_template (str_of_messages []) prompt_context
                      user_question
        /\ Substring (history_section (str_of_messages [])) prompt).
Proof.
  intros Hp. split.
  - intros Hoff. rewrite create_prompt_history_off in Hp by assumption.
    unfold retrieve_and_build in Hp. cbn [fst] in Hp.
    destruct (fst (query' user_question w)) as [ctx|e]; [|discriminate].
    inversion Hp. exists ctx.
    split; [reflexivity|]. split; [reflexivity|].
    apply prompt_template_history.
  - intros Hon Hhist.
    rewrite create_prompt_history_empty in Hp by assumption.
    unfold retrieve_and_build in Hp. cbn [fst] in Hp.
    destruct (fst (query' user_question w)) as [ctx|e]; [|discriminate].
    inversion Hp. exists ctx.
    split; [reflexivity|]. split; [reflexivity|].
    apply prompt_template_history.
Qed.

End Routing.

Lemma count_lines_summary_prompt (line h q : string) :
  count_lines line (summary_prompt h q)
  + 2 * count_lines line (indent +++ EmptyString)
  = count_lines line (summary_prompt EmptyString EmptyString)
    + count_lines line (indent +++ h)
    + count_lines line (indent +++ q).
Proof.
  unfold summary_prompt.
  repeat (rewrite count_lines_nl || rewrite count_lines_ln). lia.
Qed.

Lemma summary_line_count (tag h q line : string) :
  In tag SUMMARY_TAGS ->
  line = open_line tag \/ line = close_line tag ->
  count_lines line (summary_prompt h q)
  = 1 + count_lines line (indent +++ h) + count_lines line (indent +++ q).
Proof.
  intros Htag Hline.
  assert (H1 : count_lines line (summary_prompt EmptyString EmptyString) = 1
               /\ count_lines line (indent +++ EmptyString) = 0).
  { repeat (destruct Htag as [<-|Htag]; [destruct Hline as [->| ->];
      vm_compute; split; reflexivity|]).
    destruct Htag. }
  pose proof (count_lines_summary_prompt line h q). lia.
Qed.

Lemma summary_tags_are_section_tags (tag : string) :
  In tag SUMMARY_TAGS -> In tag SECTION_TAGS.
Proof. simpl. intuition. Qed.

(** X12.  The summarizer's prompt holds its answer-only directive
    verbatim, the question in a question section and at least one
    history section; when neither the history text nor the question has
    a [<] character it holds exactly one history section and one question
    section. *)
Theorem summary_prompt_sections (h q : string) :
  let p := summary_prompt h q in
  contains ANSWER_ONLY_DIRECTIVE p = true
  /\ Substring (question_section q) p
  /\ Substring (history_section h) p
  /\ (forall tag, In tag SUMMARY_TAGS ->
        1 <= fst (sections tag p) /\ 1 <= snd (sections tag p))
  /\ (has_char lt_sign h = false -> has_char lt_sign q = false ->
      forall tag, In tag SUMMARY_TAGS -> sections tag p = (1, 1)).
Proof.
  intros p. split; [|split; [|split; [|split]]].
  - vm_compute. reflexivity.
  - unfold p, summary_prompt. do 9 apply substring_app_r.
    eexists EmptyString, _. unfold question_section.
    rewrite !app_assoc_s. reflexivity.
  - unfold p, summary_prompt. do 6 apply substring_app_r.
    eexists EmptyString, _. unfold history_section.
    rewrite !app_assoc_s. reflexivity.
  - intros tag Htag. unfold sections, p. cbn [fst snd].
    rewrite (summary_line_count tag h q (open_line tag)) by auto.
    rewrite (summary_line_count tag h q (close_line tag)) by auto.
    lia.
  - intros Hh Hq tag Htag. unfold sections, p.
    rewrite (summary_line_count tag h q (open_line tag)) by auto.
    rewrite (summary_line_count tag h q (close_line tag)) by auto.
    pose proof (summary_tags_are_section_tags tag Htag) as Hsec.
    rewrite !(section_line_absent tag _ (open_line tag)) by auto.
    rewrite !(section_line_absent tag _ (close_line tag)) by auto.
    reflexivity.
Qed.

Lemma search_is_routed_by_keyword_witness :
  exists service,
    calls (snd (query_cortex_search_service ascii_lower Demo.search_down
                  "List every ETF" Runs.w_two_prior))
    = [CallSearch service "List every ETF" 5]
    /\ service = STRUCTURED_SERVICE.
Proof.
  destruct (search_is_routed_by_keyword ascii_lower Demo.search_down
              "List every ETF" Runs.w_two_prior)
    as (service & Hcalls & _ & _ & _ & Hyes & _).
  exists service. split; [exact Hcalls|].
  apply Hyes. exists "etf". split; [simpl; auto 10|].
  exists "list every ", EmptyString. reflexivity.
Defined.

Lemma search_uses_first_matching_descriptor_witness :
  fst (query_cortex_search_service ascii_lower Demo.search_up "hello"
         Runs.w_two_prior)
  = render_context "chunk" [[("chunk", "Apple Inc. is listed as AAPL.")]] 0
      EmptyString.
Proof.
  apply (search_uses_first_matching_descriptor ascii_lower Demo.search_up
           "hello" Runs.w_two_prior
           [mkServiceMeta "STOCK_MARKET_SERVICE" "chunk"] []
           (mkServiceMeta "PROSPECTUS_SERVICE" "chunk")
           [[("chunk", "Apple Inc. is listed as AAPL.")]]).
  - reflexivity.
  - intros s [<-|[]]. vm_compute. discriminate.
  - reflexivity.
  - reflexivity.
Defined.

Lemma prompt_history_without_rewrite_witness :
  exists prompt_context,
    fst (query_cortex_search_service ascii_lower Demo.search_up
           "And its exchange?" Runs.w_history_off)
    = Ok prompt_context
    /\ prompt_template EmptyString
         (context_block 1 "Apple Inc. is listed as AAPL.")
         "And its exchange?"
       = prompt_template EmptyString prompt_context "And its exchange?"
    /\ Substring (history_section EmptyString)
         (prompt_template EmptyString
            (context_block 1 "Apple Inc. is listed as AAPL.")
            "And its exchange?").
Proof.
  apply (prompt_history_without_rewrite ascii_lower Demo.str_of_messages
           Demo.sql_up Demo.search_up "And its exchange?"
           Runs.w_history_off).
  - reflexivity.
  - reflexivity.
Defined.

Lemma summary_prompt_sections_witness :
  sections "question" (summary_prompt "[]" "And its exchange?") = (1, 1).
Proof.
  apply (summary_prompt_sections "[]" "And its exchange?").
  - reflexivity.
  - reflexivity.
  - simpl. auto.
Defined.

(* ------------------------------------------------------------------ *)
(** ** Further properties: whole runs                                  *)
(* ------------------------------------------------------------------ *)

Lemma chat_input_accepts (disable_chat : bool) (typed : option string)
  (question : string) :
  chat_input disable_chat typed = Some question ->
  disable_chat = false /\ typed = Some question /\ question <> EmptyString.
Proof.
  unfold chat_input. destruct disable_chat; [discriminate|].
  destruct typed as [[|c t]|]; try discriminate.
  intros H. inversion H. repeat split. discriminate.
Qed.

Lemma alternating_from_app (user_next : bool) (l l' : list Message) :
  alternating_from user_next (l ++ l')
  = alternating_from user_next l
    && alternating_from
         (if Nat.even (length l) then user_next else negb user_next) l'.
Proof.
  revert user_next. induction l as [|m l IH]; intros user_next.
  - reflexivity.
  - cbn [app alternating_from length]. rewrite IH, <- andb_assoc.
    do 2 f_equal. rewrite Nat.even_succ, <- Nat.negb_even.
    destruct (Nat.even (length l)); cbn [negb];
      [reflexivity | now rewrite negb_involutive].
Qed.

Section WholeRun.

Variable lower : string -> string.
Variable str_of_messages : list Message -> string.
Variable platform_sql : list Call -> string -> list string -> result (list Row).
Variable platform_search :
  list Call -> string -> string -> Z -> result (list Row).

Local Abbreviation complete' := (complete platform_sql).
Local Abbreviation create_prompt' :=
  (create_prompt lower str_of_messages platform_sql platform_search).
Local Abbreviation main' :=
  (main lower str_of_messages platform_sql platform_search).
Local Abbreviation answer_turn' :=
  (answer_turn lower str_of_messages platform_sql platform_search).

(** The three outcomes of the pipeline of a turn. *)
Lemma answer_turn_outcome (question : string) (w : World)
  (msgs : list Message) :
  messages (state w) = Some msgs ->
  let cp := create_prompt' question w in
  match fst cp with
  | Raise e => answer_turn' question w = (Raise e, snd cp)
  | Ok prompt =>
      let sent := calls (snd cp)
                  ++ [CallSql COMPLETE_SQL [model_name (state w); prompt]] in
      match fst (complete' (model_name (state w)) prompt (snd cp)) with
      | Raise e =>
          answer_turn' question w
          = (Raise e, mkWorld (state (snd cp)) sent)
      | Ok reply =>
          answer_turn' question w
          = (Ok tt,
             mkWorld
               (set_messages (msgs ++ [mkMessage "assistant" reply])
                  (state (snd cp)))
               sent)
      end
  end.
Proof.
  intros Hm cp. subst cp. unfold answer_turn.
  rewrite bind_run. cbn [get_state fst snd].
  rewrite bind_run.
  destruct (create_prompt_frame lower str_of_messages platform_sql
              platform_search question w) as (Hlog & _ & _ & _).
  destruct (fst (create_prompt' question w)) as [prompt|e]; [|reflexivity].
  cbv zeta. rewrite bind_run, complete_world.
  destruct (fst (complete' _ _ _)) as [reply|e]; [|reflexivity].
  rewrite (append_message_run _ _ _ msgs)
    by (cbn [state]; congruence).
  reflexivity.
Qed.

Lemma answer_turn_config (question : string) (w : World)
  (msgs : list Message) :
  messages (state w) = Some msgs ->
  same_config (state w) (state (snd (answer_turn' question w)))
  /\ exists new_calls,
       calls (snd (answer_turn' question w)) = calls w ++ new_calls.
Proof.
  intros Hm.
  pose proof (answer_turn_outcome question w msgs Hm) as Hout.
  cbv zeta in Hout.
  destruct (create_prompt_frame lower str_of_messages platform_sql
              platform_search question w) as (_ & Hcfg & [new Hnew] & _).
  destruct (fst (create_prompt' question w)) as [prompt|e].
  - destruct (fst (complete' _ _ _)) as [reply|e]; rewrite Hout;
      cbn [snd state calls]; (split; [exact Hcfg|]);
      rewrite Hnew, <- app_assoc; eauto.
  - rewrite Hout. split; [exact Hcfg | eauto].
Qed.

Lemma turn_start_config (question : string) (w : World) :
  same_config (state w) (state (turn_start question w)).
Proof.
  unfold turn_start. cbn [state].
  destruct (init_messages_config (state w)) as [Hcfg _].
  unfold same_config in *. cbn. exact Hcfg.
Qed.

(** X13.  With the descriptors in the session state, a run of the
    script, whatever was submitted and whether or not it raises, leaves
    the model, the chunk count, the history window, the flags and the
    descriptor set as they were, and only adds to the platform calls
    already made. *)
Theorem run_keeps_configuration (typed : option string) (w : World)
  (md : list ServiceMeta) :
  service_metadata (state w) = Some md ->
  same_config (state w) (state (snd (main' typed w)))
  /\ exists new_calls, calls (snd (main' typed w)) = calls w ++ new_calls.
Proof.
  intros Hmd.
  destruct (chat_input (Nat.eqb (length md) 0) typed) as [question|] eqn:Hin.
  - apply chat_input_accepts in Hin as (Hnon & -> & Hq).
    assert (Hne : md <> []) by (intros ->; discriminate).
    rewrite (main_turn _ _ _ _ question w md Hmd Hne Hq).
    destruct (answer_turn_config (without_apostrophes question)
                (turn_start question w) _ eq_refl) as [Hcfg Hcalls].
    split; [|exact Hcalls].
    apply same_config_trans with (state (turn_start question w));
      [apply turn_start_config | exact Hcfg].
  - rewrite (main_without_question _ _ _ _ typed w md Hmd Hin).
    cbn [snd state calls].
    split; [apply init_messages_config|].
    exists []. now rewrite app_nil_r.
Qed.

Lemma create_prompt_ok_calls (question : string) (w : World)
  (prompt : string) :
  fst (create_prompt' question w) = Ok prompt ->
  Substring (question_section question) prompt
  /\ (calls (snd (create_prompt' question w))
      = calls w
        ++ [CallSearch (select_service lower question) question
              (num_retrieved_chunks (state w))]
      \/ exists chat_history summary,
           chat_history <> []
           /\ get_chat_history w = (Ok chat_history, w)
           /\ fst (complete' (model_name (state w))
                     (summary_prompt (str_of_messages chat_history)
                        question) w)
              = Ok summary
           /\ calls (snd (create_prompt' question w))
              = calls w
                ++ [CallSql COMPLETE_SQL
                      [model_name (state w);
                       summary_prompt (str_of_messages chat_history)
                         question];
                    CallSearch (select_service lower summary) summary
                      (num_retrieved_chunks (state w))]).
Proof.
  intros Hp. split.
  - destruct (create_prompt_frame lower str_of_messages platform_sql
                platform_search question w) as (_ & _ & _ & Hshape).
    destruct (Hshape prompt Hp) as (h & c & ->).
    apply prompt_template_question.
  - destruct (use_chat_history (state w)) eqn:Hon.
    + destruct (get_chat_history_cases w) as [Hnone|[hist Hhist]].
      * rewrite create_prompt_no_log in Hp by assumption. discriminate.
      * destruct hist as [|h hs].
        -- left. rewrite create_prompt_history_empty by assumption.
           now rewrite retrieve_and_build_world.
        -- right. revert Hp.
           rewrite (create_prompt_history_rewrite _ _ _ _ _ _ (h :: hs))
             by (assumption || discriminate).
           destruct (fst (complete platform_sql _ _ _)) as [summary|e]
             eqn:Hsum; [|discriminate].
           intros _. exists (h :: hs), summary.
           split; [discriminate|]. split; [exact Hhist|].
           split; [exact Hsum|].
           rewrite retrieve_and_build_world. cbn [calls state].
           now rewrite <- app_assoc.
    + left. rewrite create_prompt_history_off by assumption.
      now rewrite retrieve_and_build_world.
Qed.

(** X14.  A turn that succeeds makes two or three platform calls and
    ends with the completion of the prompt that [create_prompt] returned:
    either the search for the question without apostrophes and then that
    completion, or the summarizer's completion on the history window and
    the question without apostrophes, the search for the very summary
    that completion returned, and then the final completion; the final
    prompt carries the question without apostrophes in its question
    section. *)
Theorem successful_turn_calls (question : string) (w : World)
  (md : list ServiceMeta) :
  service_metadata (state w) = Some md ->
  md <> [] ->
  question <> EmptyString ->
  fst (main' (Some question) w) = Ok tt ->
  let asked := without_apostrophes question in
  let model := model_name (state w) in
  let limit := num_retrieved_chunks (state w) in
  let w1 := turn_start question w in
  exists prompt,
    fst (create_prompt' asked w1) = Ok prompt
    /\ Substring (question_section asked) prompt
    /\ (calls (snd (main' (Some question) w))
        = calls w
          ++ [CallSearch (select_service lower asked) asked limit;
              CallSql COMPLETE_SQL [model; prompt]]
        \/ exists chat_history summary,
             chat_history <> []
             /\ get_chat_history w1 = (Ok chat_history, w1)
             /\ fst (complete' model
                       (summary_prompt (str_of_messages chat_history) asked)
                       w1)
                = Ok summary
             /\ calls (snd (main' (Some question) w))
                = calls w
                  ++ [CallSql COMPLETE_SQL
                        [model;
                         summary_prompt (str_of_messages chat_history)
                           asked];
                      CallSearch (select_service lower summary) summary
                        limit;
                      CallSql COMPLETE_SQL [model; prompt]]).
Proof.
  intros Hmd Hne Hq. rewrite (main_turn _ _ _ _ question w md Hmd Hne Hq).
  intros Hok asked model limit w1. subst model limit w1.
  set (asked' := without_apostrophes question) in *. subst asked.
  pose proof (answer_turn_outcome asked' (turn_start question w) _ eq_refl)
    as Hout.
  cbv zeta in Hout.
  destruct (turn_start_config question w)
    as (_ & _ & _ & _ & Hmodel & Hlimit & _).
  pose proof (create_prompt_ok_calls asked' (turn_start question w)) as Hcp.
  destruct (fst (create_prompt' asked' (turn_start question w)))
    as [prompt|e]; [|rewrite Hout in Hok; discriminate].
  destruct (Hcp prompt eq_refl) as [Hsec Hcalls].
  exists prompt. split; [reflexivity|]. split; [exact Hsec|].
  destruct (fst (complete' _ _ _)) as [reply|e];
    [|rewrite Hout in Hok; discriminate].
  rewrite Hout. cbn [snd calls]. rewrite Hmodel.
  destruct Hcalls as [Hc|(hist & summary & Hne' & Hhist & Hsum & Hc)];
    rewrite Hc.
  - left. rewrite Hlimit. cbn [turn_start calls].
    now rewrite <- app_assoc.
  - right. exists hist, summary.
    split; [exact Hne'|]. split; [exact Hhist|].
    rewrite Hmodel in Hsum. split; [exact Hsum|].
    rewrite Hlimit, Hmodel. cbn [turn_start calls].
    now rewrite <- app_assoc.
Qed.

(** X15.  When the log holds whole turns (user message, reply, and so
    on), a turn that succeeds leaves a log of whole turns, two messages
    longer; a turn that raises leaves a log one message longer that ends
    with the unanswered user message and is no longer made of whole
    turns. *)
Theorem turn_keeps_whole_turns (question : string) (w : World)
  (md : list ServiceMeta) :
  service_metadata (state w) = Some md ->
  md <> [] ->
  question <> EmptyString ->
  whole_turns (log_after_init (state w)) = true ->
  let rw := main' (Some question) w in
  exists log,
    messages (state (snd rw)) = Some log
    /\ match fst rw with
       | Ok _ =>
           whole_turns log = true
           /\ length log = length (log_after_init (state w)) + 2
       | Raise _ =>
           whole_turns log = false
           /\ length log = length (log_after_init (state w)) + 1
           /\ last log (mkMessage EmptyString EmptyString)
              = mkMessage "user" question
       end.
Proof.
  intros Hmd Hne Hq Hwhole rw. subst rw.
  rewrite (main_turn _ _ _ _ question w md Hmd Hne Hq).
  pose proof (answer_turn_log lower str_of_messages platform_sql
                platform_search (without_apostrophes question)
                (turn_start question w)
                (log_after_init (state w) ++ [mkMessage "user" question])
                eq_refl) as H.
  cbv zeta in H.
  unfold whole_turns in *. apply andb_true_iff in Hwhole as [Halt Heven].
  destruct (fst (answer_turn' _ _)).
  - destruct H as [reply H]. eexists. split; [exact H|].
    rewrite <- app_assoc. cbn [app].
    rewrite alternating_from_app, Halt, Heven, !length_app.
    cbn [length alternating_from role negb andb].
    split; [|lia].
    rewrite Nat.even_add, Heven. reflexivity.
  - eexists. split; [exact H|].
    rewrite !length_app, last_last. cbn [length].
    split; [|split; [lia | reflexivity]].
    rewrite Nat.even_add, Heven. cbn. apply andb_false_r.
Qed.

End WholeRun.

(* ------------------------------------------------------------------ *)
(** ** Further properties: the classifier's keywords                   *)
(* ------------------------------------------------------------------ *)

Lemma substring_trans (a b c : string) :
  Substring a b -> Substring b c -> Substring a c.
Proof.
  intros (x & y & ->) (u & v & ->).
  exists (u +++ x), (y +++ v). now rewrite !app_assoc_s.
Qed.

Section Keywords.

Variable lower : string -> string.

(** X16.  Classification is monotone in the lowered text, whatever
    the lower-casing does: when the lowered text of one query occurs
    inside the lowered text of another, "structured" for the first gives
    "structured" for the second, and "unstructured" for the second gives
    "unstructured" for the first. *)
Theorem structured_query_stays_structured (q1 q2 : string) :
  Substring (lower q1) (lower q2) ->
  (classify_prompt lower q1 = "structured" ->
   classify_prompt lower q2 = "structured")
  /\ (classify_prompt lower q2 = "unstructured" ->
      classify_prompt lower q1 = "unstructured").
Proof.
  intros Hsub.
  assert (Hup : classify_prompt lower q1 = "structured" ->
                classify_prompt lower q2 = "structured").
  { unfold classify_prompt. rewrite !classify_keywords_structured.
    intros (k & Hin & Hk). exists k. split; [exact Hin|].
    now apply substring_trans with (lower q1). }
  split; [exact Hup|]. intros Hun.
  destruct (classify_keywords_cases STRUCTURED_KEYWORDS (lower q1))
    as [H1|H1]; [|exact H1].
  specialize (Hup H1). rewrite Hup in Hun. discriminate.
Qed.

(** X17.  The keywords "cqs symbol" and "nasdaq symbol" never decide a
    classification: every query is classified as it would be with the
    ten other keywords alone, since "symbol" is itself a keyword. *)
Theorem symbol_keywords_are_redundant (q : string) :
  classify_prompt lower q = classify_keywords DECIDING_KEYWORDS (lower q).
Proof.
  unfold classify_prompt.
  pose proof (classify_keywords_structured STRUCTURED_KEYWORDS (lower q))
    as Hall.
  pose proof (classify_keywords_structured DECIDING_KEYWORDS (lower q))
    as Hten.
  assert (Hiff : (exists k, In k STRUCTURED_KEYWORDS /\ Substring k (lower q))
                 <-> (exists k, In k DECIDING_KEYWORDS
                                /\ Substring k (lower q))).
  { split; intros (k & Hin & Hsub).
    - assert (Hk : In k DECIDING_KEYWORDS
                   \/ k = "cqs symbol" \/ k = "nasdaq symbol")
        by (simpl in *; intuition).
      destruct Hk as [Hk|Hk]; [eauto|].
      exists "symbol". split; [simpl; auto|].
      apply substring_trans with k; [|exact Hsub].
      destruct Hk as [-> | ->].
      + exists "cqs ", EmptyString. reflexivity.
      + exists "nasdaq ", EmptyString. reflexivity.
    - exists k. split; [|exact Hsub]. simpl in *. intuition. }
  destruct (classify_keywords_cases STRUCTURED_KEYWORDS (lower q)) as [H1|H1],
    (classify_keywords_cases DECIDING_KEYWORDS (lower q)) as [H2|H2];
    rewrite H1, H2; try reflexivity; exfalso.
  - apply Hall, Hiff, Hten in H1. rewrite H1 in H2. discriminate.
  - apply Hten, Hiff, Hall in H2. rewrite H2 in H1. discriminate.
Qed.

End Keywords.

Lemma structured_query_stays_structured_witness :
  classify_prompt ascii_lower "Please tell me: THE etf LIST?" = "structured".
Proof.
  apply (structured_query_stays_structured ascii_lower "the ETF list"
           "Please tell me: THE etf LIST?").
  - exists "please tell me: ", "?". reflexivity.
  - reflexivity.
Defined.

Lemma run_keeps_configuration_witness :
  same_config (state Runs.w_two_prior)
    (state (snd (Runs.main_down (Some Runs.question) Runs.w_two_prior))).
Proof.
  apply (run_keeps_configuration ascii_lower Demo.str_of_messages
           Demo.sql_down Demo.search_up (Some Runs.question)
           Runs.w_two_prior Demo.metadata).
  reflexivity.
Defined.

Lemma successful_turn_calls_witness :
  exists prompt,
    fst (Runs.create_prompt_up (without_apostrophes Runs.question)
           (turn_start Runs.question Runs.w_two_prior))
    = Ok prompt
    /\ Substring (question_section (without_apostrophes Runs.question))
         prompt
    /\ (calls (snd (Runs.main_up (Some Runs.question) Runs.w_two_prior))
        = calls Runs.w_two_prior
          ++ [CallSearch
                (select_service ascii_lower
                   (without_apostrophes Runs.question))
                (without_apostrophes Runs.question)
                (num_retrieved_chunks (state Runs.w_two_prior));
              CallSql COMPLETE_SQL
                [model_name (state Runs.w_two_prior); prompt]]
        \/ exists chat_history summary,
             chat_history <> []
             /\ get_chat_history (turn_start Runs.question Runs.w_two_prior)
                = (Ok chat_history,
                   turn_start Runs.question Runs.w_two_prior)
             /\ fst (complete Demo.sql_up
                       (model_name (state Runs.w_two_prior))
                       (summary_prompt (Demo.str_of_messages chat_history)
                          (without_apostrophes Runs.question))
                       (turn_start Runs.question Runs.w_two_prior))
                = Ok summary
             /\ calls (snd (Runs.main_up (Some Runs.question)
                              Runs.w_two_prior))
                = calls Runs.w_two_prior
                  ++ [CallSql COMPLETE_SQL
                        [model_name (state Runs.w_two_prior);
                         summary_prompt (Demo.str_of_messages chat_history)
                           (without_apostrophes Runs.question)];
                      CallSearch (select_service ascii_lower summary)
                        summary
                        (num_retrieved_chunks (state Runs.w_two_prior));
                      CallSql COMPLETE_SQL
                        [model_name (state Runs.w_two_prior); prompt]]).
Proof.
  apply (successful_turn_calls ascii_lower Demo.str_of_messages Demo.sql_up
           Demo.search_up Runs.question Runs.w_two_prior Demo.metadata).
  - reflexivity.
  - discriminate.
  - discriminate.
  - reflexivity.
Defined.

Lemma turn_keeps_whole_turns_witness :
  let rw := Runs.main_up (Some Runs.question) Runs.w_two_prior in
  exists log,
    messages (state (snd rw)) = Some log
    /\ match fst rw with
       | Ok _ =>
           whole_turns log = true
           /\ length log
              = length (log_after_init (state Runs.w_two_prior)) + 2
       | Raise _ =>
           whole_turns log = false
           /\ length log
              = length (log_after_init (state Runs.w_two_prior)) + 1
           /\ last log (mkMessage EmptyString EmptyString)
              = mkMessage "user" Runs.question
       end.
Proof.
  apply (turn_keeps_whole_turns ascii_lower Demo.str_of_messages Demo.sql_up
           Demo.search_up Runs.question Runs.w_two_prior Demo.metadata).
  - reflexivity.
  - discriminate.
  - discriminate.
  - reflexivity.
Defined.

(* ------------------------------------------------------------------ *)
(** ** The text of the question along the pipeline                     *)
(* ------------------------------------------------------------------ *)

Section QuestionText.

Variable lower : string -> string.
Variable str_of_messages : list Message -> string.
Variable platform_sql : list Call -> string -> list string -> result (list Row).
Variable platform_search :
  list Call -> string -> string -> Z -> result (list Row).

Local Abbreviation complete' := (complete platform_sql).
Local Abbreviation query' :=
  (query_cortex_search_service lower platform_search).
Local Abbreviation create_prompt' :=
  (create_prompt lower str_of_messages platform_sql platform_search).
Local Abbreviation main' :=
  (main lower str_of_messages platform_sql platform_search).
Local Abbreviation answer_turn' :=
  (answer_turn lower str_of_messages platform_sql platform_search).
Local Abbreviation retrieval' :=
  (retrieval_then_completion lower platform_search).
Local Abbreviation rewrite' :=
  (rewrite_then_retrieval lower str_of_messages platform_sql platform_search).

(** The calls of the pipeline are those of [create_prompt] and, when it
    returns a prompt, the completion of that prompt. *)
Lemma answer_turn_calls (question : string) (w : World)
  (msgs : list Message) :
  messages (state w) = Some msgs ->
  calls (snd (answer_turn' question w))
  = calls (snd (create_prompt' question w))
    ++ match fst (create_prompt' question w) with
       | Ok prompt => [CallSql COMPLETE_SQL [model_name (state w); prompt]]
       | Raise _ => []
       end.
Proof.
  intros Hm.
  pose proof (answer_turn_outcome lower str_of_messages platform_sql
                platform_search question w msgs Hm) as Hout.
  cbv zeta in Hout.
  destruct (fst (create_prompt' question w)) as [prompt|e].
  - destruct (fst (complete' _ _ _)); rewrite Hout; reflexivity.
  - rewrite Hout. cbn [snd]. now rewrite app_nil_r.
Qed.

Lemma retrieve_and_build_calls (history query user_question : string)
  (w : World) :
  let rb := retrieve_and_build lower platform_search history query
              user_question w in
  calls (snd rb)
  ++ match fst rb with
     | Ok prompt => [CallSql COMPLETE_SQL [model_name (state w); prompt]]
     | Raise _ => []
     end
  = calls w ++ retrieval' history query user_question w.
Proof.
  intros rb. subst rb. rewrite retrieve_and_build_world.
  unfold retrieve_and_build, retrieval_then_completion. cbn [fst calls].
  rewrite <- app_assoc. cbn [app].
  destruct (fst (query' query w)); reflexivity.
Qed.

(** The calls of the pipeline of a turn, by the way [create_prompt]
    takes. *)
Lemma answer_turn_trace (question : string) (w : World)
  (msgs : list Message) :
  messages (state w) = Some msgs ->
  (use_chat_history (state w) = false ->
   calls (snd (answer_turn' question w))
   = calls w ++ retrieval' EmptyString question question w)
  /\ (use_chat_history (state w) = true ->
      forall chat_history,
        get_chat_history w = (Ok chat_history, w) ->
        calls (snd (answer_turn' question w))
        = calls w
          ++ match chat_history with
             | [] => retrieval' (str_of_messages []) question question w
             | _ :: _ => rewrite' chat_history question w
             end).
Proof.
  intros Hm. rewrite (answer_turn_calls question w msgs Hm). split.
  - intros Hoff. rewrite create_prompt_history_off by assumption.
    apply retrieve_and_build_calls.
  - intros Hon hist Hhist. destruct hist as [|h hs].
    + rewrite create_prompt_history_empty by assumption.
      apply retrieve_and_build_calls.
    + rewrite (create_prompt_history_rewrite _ _ _ _ _ _ (h :: hs))
        by (assumption || discriminate).
      unfold rewrite_then_retrieval. cbv zeta.
      destruct (fst (complete' _ _ _)) as [summary|e].
      * pose proof (retrieve_and_build_calls
                      (str_of_messages (h :: hs)) summary question
                      (mkWorld (state w)
                         (calls w
                          ++ [CallSql COMPLETE_SQL
                                [model_name (state w);
                                 summary_prompt
                                   (str_of_messages (h :: hs)) question]])))
          as Hrb.
        cbv zeta in Hrb. cbn [state calls] in Hrb. rewrite Hrb.
        now rewrite <- app_assoc.
      * cbn [fst snd calls]. now rewrite app_nil_r.
Qed.

(** C10.  In a run that accepts a question, the user message that goes
    to the log keeps the raw text, and every platform call of the turn is
    made for the question with all apostrophes removed: without rewriting
    the search is for that text and the final prompt is the template
    filled with it; with rewriting the summarizer's prompt holds that
    text, the search is for the summary returned and the final prompt is
    again the template filled with that text. *)
Theorem question_loses_apostrophes_log_keeps_them (question : string)
  (w : World) (md : list ServiceMeta) :
  service_metadata (state w) = Some md ->
  md <> [] ->
  question <> EmptyString ->
  let asked := str_replace "'" EmptyString question in
  let w1 := turn_start question w in
  let rw := main' (Some question) w in
  asked = without_apostrophes question
  /\ has_char apostrophe asked = false
  /\ messages (state w1)
     = Some (log_after_init (state w) ++ [mkMessage "user" question])
  /\ (exists rest,
        messages (state (snd rw))
        = Some (log_after_init (state w)
                ++ mkMessage "user" question :: rest))
  /\ (exists chat_history, get_chat_history w1 = (Ok chat_history, w1))
  /\ (use_chat_history (state w) = false ->
      calls (snd rw) = calls w ++ retrieval' EmptyString asked asked w1)
  /\ (use_chat_history (state w) = true ->
      forall chat_history,
        get_chat_history w1 = (Ok chat_history, w1) ->
        calls (snd rw)
        = calls w
          ++ match chat_history with
             | [] => retrieval' (str_of_messages []) asked asked w1
             | _ :: _ => rewrite' chat_history asked w1
             end).
Proof.
  intros Hmd Hne Hq asked w1 rw.
  assert (Hasked : asked = without_apostrophes question).
  { unfold asked. change "'" with (String apostrophe EmptyString).
    apply replace_char_by_nothing. }
  assert (Hrun : rw = answer_turn' asked w1).
  { unfold rw. rewrite Hasked.
    apply (main_turn _ _ _ _ question w md Hmd Hne Hq). }
  assert (Hlog : messages (state w1)
                 = Some (log_after_init (state w)
                         ++ [mkMessage "user" question]))
    by reflexivity.
  assert (Huse : use_chat_history (state w1) = use_chat_history (state w)).
  { destruct (turn_start_config question w) as (_ & _ & _ & Hu & _).
    exact Hu. }
  destruct (answer_turn_trace asked w1 _ Hlog) as [Hoff Hon].
  split; [exact Hasked|].
  split; [rewrite Hasked; apply filter_chars_removes|].
  split; [exact Hlog|].
  split; [|split; [|split]].
  - rewrite Hrun.
    pose proof (answer_turn_log lower str_of_messages platform_sql
                  platform_search asked w1 _ Hlog) as H.
    cbv zeta in H.
    destruct (fst (answer_turn' asked w1)).
    + destruct H as [reply H]. exists [mkMessage "assistant" reply].
      rewrite H. now rewrite <- app_assoc.
    + exists []. exact H.
  - destruct (get_chat_history_cases w1) as [Hnone|Hsome];
      [congruence | exact Hsome].
  - intros Hu. rewrite Hrun. rewrite Hoff by congruence. reflexivity.
  - intros Hu hist Hhist. rewrite Hrun.
    rewrite (Hon ltac:(congruence) hist Hhist). reflexivity.
Qed.

End QuestionText.

(** C10 on a question with an apostrophe, asked after two messages with
    history use on: the log keeps the apostrophe, the summarizer's prompt
    and the final prompt hold the text without it. *)
Lemma question_loses_apostrophes_log_keeps_them_witness :
  str_replace "'" EmptyString Runs.question = "Whats its exchange?"
  /\ messages (state (turn_start Runs.question Runs.w_two_prior))
     = Some (Demo.two_prior ++ [Demo.user "What's its exchange?"])
  /\ calls (snd (Runs.main_up (Some Runs.question) Runs.w_two_prior))
     = [CallSql COMPLETE_SQL
          ["mistral-large";
           summary_prompt (Demo.str_of_messages Demo.two_prior)
             "Whats its exchange?"];
        CallSearch "stock_market_service" Demo.rewritten_query 5;
        CallSql COMPLETE_SQL
          ["mistral-large";
           prompt_template (Demo.str_of_messages Demo.two_prior)
             (context_block 1 "Apple Inc. is listed as AAPL.")
             "Whats its exchange?"]].
Proof.
  destruct (question_loses_apostrophes_log_keeps_them ascii_lower
              Demo.str_of_messages Demo.sql_up Demo.search_up
              Runs.question Runs.w_two_prior Demo.metadata eq_refl)
    as (Hasked & _ & Hlog & _ & _ & _ & Hon).
  - discriminate.
  - discriminate.
  - split; [rewrite Hasked; reflexivity|]. split; [exact Hlog|].
    unfold Runs.main_up.
    rewrite (Hon eq_refl Demo.two_prior eq_refl). reflexivity.
Defined.
